(** * fpb_tools.build: environment build, device build and image packaging

    A shallow embedding of [src/fpb-tools/fpb_tools/build.py] ([env],
    [car_fob_pair], [make_dev], [package_device]) and the properties of it
    that the specification states.

    Modelling choices.
    - A Python [bytes] value is a [list byte]; a Python [str] is a Rocq
      [string] holding its UTF-8 bytes, so [str.encode()] only changes the
      representation.
    - A [pathlib.Path] is the list of its [parts] below the root.  Paths are
      absolute, normalised and free of symbolic links, so [resolve] returns
      its argument; a name appended with [/] is one component.
    - The file system is a finite map from paths to nodes.  A path is looked
      up the way the operating system does it, component by component from
      the root, which gives the operations of [pathlib] their documented
      errors (FileNotFoundError, NotADirectoryError, IsADirectoryError,
      FileExistsError).  Permissions, quotas and I/O faults are not modelled.
    - The functions run in a state-and-exception monad over a [world]: the
      file system and the trace of the effects performed so far.  A raised
      exception keeps the world reached, as in Python.
    - The collaborators that are not part of this file ([run_shell],
      [zip_step_returns], the docker client, [docker.utils.tar], the two
      size constants of [fpb_tools.device]) are parameters of the model.
    - [async]/[await] is sequential here: each [await] is a plain call.
    - Calls to the logger only emit diagnostics and are left out; the
      [except BuildError] handler of [env], which logs and re-raises, is
      therefore the propagation of the exception.

    Limits of the model of [env].
    - Reading the manifest in text mode is modelled on plain text:
      [decode] is total and keeps every byte, so the UnicodeDecodeError
      that [read()] raises on bytes outside the locale encoding, and the
      translation of line endings, are not modelled.
    - [docker.utils.tar] is a function of the file system with no effect on
      the modelled tree; the temporary file that it writes on the host, and
      its reads of the build directory, are outside the model.
    - The [except BuildError] handler iterates [e.build_log] while logging;
      what is left of the log in the exception that it re-raises is not
      modelled.
    What is stated of [env] is therefore the failure that precedes the read of
    the manifest, and the result of a call that returns. *)

From Stdlib Require Import ZArith Lia.
From stdpp Require Import base list strings gmap pretty.

Set Default Proof Using "Type".
Local Open Scope string_scope.
Local Open Scope list_scope.
Local Open Scope nat_scope.

(** ** Bytes and strings *)

Abbreviation bytes := (list Byte.byte).

(** [bytes.ljust(width, fill)]: the original sequence when [width] is at most
    its length, otherwise the sequence followed by the fill byte up to
    [width]. *)
Definition ljust (data : bytes) (width : nat) (fill : Byte.byte) : bytes :=
  if decide (width ≤ length data) then data
  else data ++ replicate (width - length data) fill.

(** [str.encode()] on the UTF-8 representation. *)
Definition encode (s : string) : bytes := String.list_byte_of_string s.

(** Text-mode [read()] of a file's bytes, for text that the locale encoding
    decodes byte for byte. *)
Definition decode (b : bytes) : string := String.string_of_list_byte b.

(** Text on which every ASCII-compatible encoding agrees and which text mode
    leaves as it is: bytes below 0x80, none of them a carriage return. *)
Definition plain_text (b : bytes) : Prop :=
  Forall (λ c, Byte.to_nat c < 128 ∧ Byte.to_nat c ≠ 13) b.

(** The quotation mark of the shell command line. *)
Definition dquote : string := String (Ascii.ascii_of_nat 34) EmptyString.

(** [str(n)] for a Python [int]. *)
Definition str_of_int (n : Z) : string := pretty n.

(** ** Paths *)

Abbreviation Path := (list string).

(** [p / q] for a relative [q]. *)
Definition joinpath (p q : Path) : Path := p ++ q.

(** [Path.resolve()] on an absolute, normalised, link-free path. *)
Definition resolve (p : Path) : Path := p.

(** [Path.parent]. *)
Definition parent (p : Path) : Path := take (length p - 1) p.

(** [str(p)]. *)
Definition str_of_path (p : Path) : string :=
  "/" +:+ String.concat "/" p.

(** ** The file system *)

Inductive node :=
  | File (data : bytes)
  | Dir.

Abbreviation FS := (gmap (list string) node).

Inductive os_error :=
  | FileNotFoundError
  | FileExistsError
  | IsADirectoryError
  | NotADirectoryError.

(** The entry of a path; the root is always a directory. *)
Definition entry (fs : FS) (p : Path) : option node :=
  match p with
  | [] => Some Dir
  | _ => fs !! p
  end.

(** Path resolution from [cur] along the components [rest]: a missing
    component is FileNotFoundError, a component below a regular file is
    NotADirectoryError. *)
Fixpoint walk (fs : FS) (cur : Path) (rest : list string) : os_error + node :=
  match entry fs cur with
  | None => inl FileNotFoundError
  | Some n =>
      match rest with
      | [] => inr n
      | c :: rest' =>
          match n with
          | Dir => walk fs (cur ++ [c]) rest'
          | File _ => inl NotADirectoryError
          end
      end
  end.

Definition stat (fs : FS) (p : Path) : os_error + node := walk fs [] p.

(** The contents of the regular file at [p], if there is one. *)
Definition contents (fs : FS) (p : Path) : option bytes :=
  match stat fs p with
  | inr (File d) => Some d
  | _ => None
  end.

(** A write to [p] succeeds: [p] is a regular file, or is absent in an
    existing directory. *)
Definition writable (fs : FS) (p : Path) : bool :=
  match stat fs p with
  | inr (File _) => true
  | inr Dir => false
  | inl _ =>
      match stat fs (parent p) with
      | inr Dir => true
      | _ => false
      end
  end.

(** ** Exceptions, effects and the monad *)

Abbreviation log_entry := (gmap string string).

Inductive exn :=
  | OSError (kind : os_error) (p : Path)
  | BuildError (msg : string) (build_log : list log_entry)
  | ExternalError (cls : string) (stdout stderr : bytes).

Definition os_error_name (k : os_error) : string :=
  match k with
  | FileNotFoundError => "FileNotFoundError"
  | FileExistsError => "FileExistsError"
  | IsADirectoryError => "IsADirectoryError"
  | NotADirectoryError => "NotADirectoryError"
  end.

(** The Python class of an exception. *)
Definition exn_class (e : exn) : string :=
  match e with
  | OSError k _ => os_error_name k
  | BuildError _ _ => "BuildError"
  | ExternalError cls _ _ => cls
  end.

Inductive result (A : Type) :=
  | Return (a : A)
  | Raise (e : exn).
Arguments Return {A} a.
Arguments Raise {A} e.

(** [HandlerRet]: the (stdout, stderr) pair of a step. *)
Abbreviation HandlerRet := (bytes * bytes)%type.

(** The trace: file-system effects that took place, calls to the
    collaborators with their outcome where a property needs it, and the entry
    into the two functions whose invocation the specification counts. *)
Inductive event :=
  | EvRead (p : Path)
  | EvWrite (p : Path) (data : bytes)
  | EvMkdir (p : Path)
  | EvRunShell (cmd : string) (outcome : result (bytes * bytes))
  | EvDockerFromEnv
  | EvImagesBuild (tag : string)
  | EvCallMakeDev (image name : string) (design : Path)
      (deployment dev_name : string) (dev_in dev_out : Path)
      (defines make_target : string)
  | EvCallPackageDevice (bin_path eeprom_path image_path : Path).

Record world := World { fs : FS; trace : list event }.

Definition M (A : Type) : Type := world → result A * world.

Definition ret {A} (a : A) : M A := λ w, (Return a, w).

Definition bind {A B} (m : M A) (k : A → M B) : M B :=
  λ w, match m w with
       | (Return a, w') => k a w'
       | (Raise e, w') => (Raise e, w')
       end.

Definition emit (ev : event) : M unit :=
  λ w, (Return tt, World (fs w) (trace w ++ [ev])).

Notation "x ← m ; k" := (bind m (λ x, k))
  (at level 20, m at level 100, k at level 200, only parsing, right associativity).
Notation "m ;; k" := (bind m (λ _, k))
  (at level 100, k at level 200, only parsing, right associativity).

(** The events a computation adds to the trace of [w]. *)
Definition events_of {A} (m : M A) (w : world) : list event :=
  drop (length (trace w)) (trace (snd (m w))).

(** ** The operations of [pathlib] used by the module *)

(** [Path.exists()]. *)
Definition path_exists (p : Path) : M bool :=
  λ w, (Return (match stat (fs w) p with inr _ => true | inl _ => false end), w).

(** [Path.mkdir()] with its default arguments: neither [parents] nor
    [exist_ok]. *)
Definition mkdir (p : Path) : M unit :=
  λ w, match stat (fs w) p with
       | inr _ => (Raise (OSError FileExistsError p), w)
       | inl _ =>
           match stat (fs w) (parent p) with
           | inr Dir =>
               (Return tt, World (<[p := Dir]> (fs w)) (trace w ++ [EvMkdir p]))
           | inr (File _) => (Raise (OSError NotADirectoryError p), w)
           | inl k => (Raise (OSError k p), w)
           end
       end.

(** [Path.read_bytes()]. *)
Definition read_bytes (p : Path) : M bytes :=
  λ w, match stat (fs w) p with
       | inr (File d) => (Return d, World (fs w) (trace w ++ [EvRead p]))
       | inr Dir => (Raise (OSError IsADirectoryError p), w)
       | inl k => (Raise (OSError k p), w)
       end.

(** [open(p, 'r')] followed by [read()], on plain text (see [decode]). *)
Definition read_text (p : Path) : M string :=
  d ← read_bytes p; ret (decode d).

(** [Path.write_bytes(data)]: creates or truncates the file, writes all of
    [data] and returns its length. *)
Definition write_bytes (p : Path) (data : bytes) : M nat :=
  λ w, match stat (fs w) p with
       | inr Dir => (Raise (OSError IsADirectoryError p), w)
       | inr (File _) =>
           (Return (length data),
            World (<[p := File data]> (fs w)) (trace w ++ [EvWrite p data]))
       | inl _ =>
           match stat (fs w) (parent p) with
           | inr Dir =>
               (Return (length data),
                World (<[p := File data]> (fs w)) (trace w ++ [EvWrite p data]))
           | inr (File _) => (Raise (OSError NotADirectoryError p), w)
           | inl k => (Raise (OSError k p), w)
           end
       end.

(** ** The module [fpb_tools.build] *)

Section Build.
(** [FW_FLASH_SIZE] and [FW_EEPROM_SIZE] of [fpb_tools.device]. *)
Variables FW_FLASH_SIZE FW_EEPROM_SIZE : nat.

(** The build context archive that [docker.utils.tar] returns. *)
Variable tarball : Type.

(** [docker.utils.tar(build_dir, dockerfile=...)]: the archive of the build
    directory, or the exception raised, as a function of the file system;
    the temporary file that holds the archive is not part of the modelled
    tree. *)
Variable tar_oracle : FS → Path → string * string → exn + tarball.

(** [docker.from_env()]: the exception it raises, if any. *)
Variable from_env_oracle : world → option exn.

(** [client.images.build(tag=..., fileobj=..., custom_context=True)]: the
    build log, or the exception raised. *)
Variable images_build_oracle : string → tarball → world → exn + list log_entry.

(** [fpb_tools.utils.run_shell(cmd)]: the captured (stdout, stderr) or the
    exception raised, and the file system the command leaves. *)
Variable run_shell_oracle : string → world → result HandlerRet * FS.

(** [fpb_tools.utils.zip_step_returns]. *)
Variable zip_step_returns : list HandlerRet → HandlerRet.

Definition tar (build_dir : Path) (dockerfile : string * string) : M tarball :=
  λ w, match tar_oracle (fs w) build_dir dockerfile with
       | inl e => (Raise e, w)
       | inr t => (Return t, w)
       end.

Definition docker_from_env : M unit :=
  λ w, let w' := World (fs w) (trace w ++ [EvDockerFromEnv]) in
       match from_env_oracle w with
       | Some e => (Raise e, w')
       | None => (Return tt, w')
       end.

Definition images_build (tag : string) (fileobj : tarball) : M (list log_entry) :=
  λ w, let w' := World (fs w) (trace w ++ [EvImagesBuild tag]) in
       match images_build_oracle tag fileobj w with
       | inl e => (Raise e, w')
       | inr logs_raw => (Return logs_raw, w')
       end.

Definition run_shell (cmd : string) : M HandlerRet :=
  λ w, let '(r, fs') := run_shell_oracle cmd w in
       (r, World fs' (trace w ++ [EvRunShell cmd r])).

(** [env], lines 16-51. *)
Definition env (design : Path) (name image : string) (docker_dir : Path)
    (dockerfile : string) : M HandlerRet :=
  let tag := image +:+ ":" +:+ name in
  (* Add build directory to context *)
  let build_dir := joinpath (resolve design) docker_dir in
  let dockerfile_name := joinpath build_dir [dockerfile] in
  df ← read_text dockerfile_name;
  let dockerfile := ("Dockerfile", df) in
  dockerfile ← tar build_dir dockerfile;
  (* run docker build *)
  docker_from_env ;;
  logs_raw ← images_build tag dockerfile;
  let logs :=
    String.concat EmptyString
      ((λ d : log_entry, d !!! "stream") <$>
         filter (λ d : log_entry, is_Some (d !! "stream")) logs_raw) in
  ret (encode logs, []).

(** [package_device], lines 163-189. *)
Definition package_device (bin_path eeprom_path image_path : Path) : M unit :=
  emit (EvCallPackageDevice bin_path eeprom_path image_path) ;;
  (* Read input bin file *)
  bin_data ← read_bytes bin_path;
  (* Pad bin data to max size *)
  let image_bin_data := ljust bin_data FW_FLASH_SIZE Byte.xff in
  (* Read EEPROM data *)
  eeprom_data ← read_bytes eeprom_path;
  (* Pad EEPROM to max size *)
  let image_eeprom_data := ljust eeprom_data FW_EEPROM_SIZE Byte.xff in
  (* Create phys_image.bin *)
  let image_data := image_bin_data ++ image_eeprom_data in
  (* Write output binary *)
  write_bytes image_path image_data ;;
  ret tt.

(** The adjacent string literals of the [run_shell] argument of [make_dev],
    lines 127-141, one element per literal. *)
Definition make_dev_cmd_parts (image name deployment dev_name : string)
    (dev_in dev_out : Path) (defines make_target : string) : list string :=
  let tag := image +:+ ":" +:+ name in
  let bin_path := "/dev_out/" +:+ dev_name +:+ ".bin" in
  let elf_path := "/dev_out/" +:+ dev_name +:+ ".elf" in
  let eeprom_path := "/dev_out/" +:+ dev_name +:+ ".eeprom" in
  [ "docker run";
    " -v " +:+ dquote +:+ str_of_path dev_in +:+ dquote +:+ ":/dev_in:ro";
    " -v " +:+ dquote +:+ str_of_path dev_out +:+ dquote +:+ ":/dev_out";
    " -v " +:+ image +:+ "." +:+ name +:+ "." +:+ deployment
      +:+ ".secrets.vol:/secrets";
    " --workdir=/root";
    " " +:+ tag +:+ " /bin/bash -c";
    " " +:+ dquote;
    " cp -r /dev_in/. /root/ &&";
    " make " +:+ make_target;
    " " +:+ defines;
    " SECRETS_DIR=/secrets";
    " BIN_PATH=" +:+ bin_path;
    " ELF_PATH=" +:+ elf_path;
    " EEPROM_PATH=" +:+ eeprom_path;
    dquote ].

Definition make_dev_cmd (image name deployment dev_name : string)
    (dev_in dev_out : Path) (defines make_target : string) : string :=
  String.concat EmptyString
    (make_dev_cmd_parts image name deployment dev_name dev_in dev_out
       defines make_target).

(** [make_dev], lines 96-160. *)
Definition make_dev (image name : string) (design : Path)
    (deployment dev_name : string) (dev_in dev_out : Path)
    (defines make_target : string) : M HandlerRet :=
  emit (EvCallMakeDev image name design deployment dev_name dev_in dev_out
          defines make_target) ;;
  (* Setup full container paths *)
  let dev_in := resolve (joinpath design dev_in) in
  let dev_out := resolve dev_out in
  (* Create output directory *)
  ex ← path_exists dev_out;
  (if negb ex then mkdir dev_out else ret tt) ;;
  (* Compile *)
  output ← run_shell
    (make_dev_cmd image name deployment dev_name dev_in dev_out defines
       make_target);
  (* Package image, eeprom, and secret *)
  let bin_path := joinpath dev_out [dev_name +:+ ".bin"] in
  let eeprom_path := joinpath dev_out [dev_name +:+ ".eeprom"] in
  let image_path := joinpath dev_out [dev_name +:+ ".img"] in
  package_device bin_path eeprom_path image_path ;;
  ret output.

(** [make_dev] from its compile step on (lines 125-160), for the resolved
    input and output directories. *)
Definition make_dev_from_compile (image name deployment dev_name : string)
    (dev_in dev_out : Path) (defines make_target : string) : M HandlerRet :=
  output ← run_shell
    (make_dev_cmd image name deployment dev_name dev_in dev_out defines
       make_target);
  package_device (joinpath dev_out [dev_name +:+ ".bin"])
    (joinpath dev_out [dev_name +:+ ".eeprom"])
    (joinpath dev_out [dev_name +:+ ".img"]) ;;
  ret output.

(** [car_fob_pair], lines 54-91. *)
Definition car_fob_pair (design : Path) (name deployment car_name : string)
    (car_out : Path) (car_id : Z) (car_in : Path) (image : string)
    : M HandlerRet :=
  (* Car defines *)
  let car_defines := " CAR_ID=" +:+ str_of_int car_id in
  (* Build car *)
  car_output ← make_dev image name design deployment car_name car_in car_out
                 car_defines "car";
  ret (zip_step_returns [car_output]).
End Build.

(** ** Observations on traces *)

Definition is_run_shell (ev : event) : bool :=
  match ev with EvRunShell _ _ => true | _ => false end.

Definition is_write (ev : event) : bool :=
  match ev with EvWrite _ _ => true | _ => false end.

Definition is_mkdir (ev : event) : bool :=
  match ev with EvMkdir _ => true | _ => false end.

(** A call to the container runtime through the docker client. *)
Definition is_docker_call (ev : event) : bool :=
  match ev with EvDockerFromEnv | EvImagesBuild _ => true | _ => false end.

Definition is_call_make_dev (ev : event) : bool :=
  match ev with EvCallMakeDev _ _ _ _ _ _ _ _ _ => true | _ => false end.

Definition is_call_package_device (ev : event) : bool :=
  match ev with EvCallPackageDevice _ _ _ => true | _ => false end.

(** The [stream] entries of a build log, in order. *)
Definition stream_entries (logs_raw : list log_entry) : list string :=
  omap (λ d : log_entry, d !! "stream") logs_raw.

(** A volume argument of [docker run]. *)
Definition volume_arg (source target : string) : string :=
  " -v " +:+ source +:+ ":" +:+ target.

(** The name of the secrets volume in the command of [make_dev], line 130. *)
Definition secrets_volume_name (image name deployment : string) : string :=
  image +:+ "." +:+ name +:+ "." +:+ deployment +:+ ".secrets.vol".

(** The name of the secrets volume in the words of the specification:
    image.name.deployment.secrets. *)
Definition spec_secrets_volume_name (image name deployment : string) : string :=
  image +:+ "." +:+ name +:+ "." +:+ deployment +:+ ".secrets".

(** The image that [package_device] composes from the two inputs. *)
Definition image_of (flash_size eeprom_size : nat) (b e : bytes) : bytes :=
  ljust b flash_size Byte.xff ++ ljust e eeprom_size Byte.xff.

(** The effects of a call of [package_device] that completes. *)
Definition package_device_events (flash_size eeprom_size : nat)
    (bin_path eeprom_path image_path : Path) (b e : bytes) : list event :=
  [ EvCallPackageDevice bin_path eeprom_path image_path;
    EvRead bin_path; EvRead eeprom_path;
    EvWrite image_path (image_of flash_size eeprom_size b e) ].

(** ** Sample data *)

(** The artifacts of one device in its output directory: the binary and
    the EEPROM data of the scenario of the specification. *)
Definition sample_bin : bytes := [Byte.x01; Byte.x02; Byte.x03; Byte.x04].
Definition sample_eeprom : bytes := [Byte.xaa; Byte.xbb].
Definition car_bin : Path := ["out"; "car.bin"].
Definition car_eeprom : Path := ["out"; "car.eeprom"].
Definition car_img : Path := ["out"; "car.img"].

Definition sample_fs : FS :=
  <[car_eeprom := File sample_eeprom]>
    (<[car_bin := File sample_bin]> (<[["out"] := Dir]> ∅)).

Definition sample_world : world := World sample_fs [].

(** The same artifacts in a world with another directory and a history. *)
Definition other_world : world :=
  World (<[["tmp"] := Dir]> sample_fs) [EvMkdir ["tmp"]].

(** The region sizes of the scenario: 0x8000 bytes of flash and 0x800 bytes
    of EEPROM. *)
Definition scenario_flash_size : nat := 32 * 1024.
Definition scenario_eeprom_size : nat := 2 * 1024.

(** A binary one byte longer than the flash region. *)
Definition oversize_bin : bytes := replicate (S scenario_flash_size) Byte.x00.

Definition oversize_world : world :=
  World (<[car_bin := File oversize_bin]> sample_fs) [].

(** A design directory with its manifest, and a world without it. *)
Definition manifest : Path := ["design"; "docker_env"; "build_image.Dockerfile"].

Definition design_fs : FS :=
  <[manifest := File (encode "FROM ubuntu:22.04")]>
    (<[["design"; "docker_env"] := Dir]> (<[["design"] := Dir]> ∅)).

Definition design_world : world := World design_fs [].

Definition empty_world : world := World ∅ [].

(** Collaborators for the examples: an archive without content, a runtime
    that connects and builds with a three-entry log, a command that fails
    and one that succeeds without touching the file system. *)
Definition sample_tar : FS → Path → string * string → exn + unit :=
  λ _ _ _, inr tt.

Definition sample_from_env : world → option exn := λ _, None.

Definition sample_log : list log_entry :=
  [ {["stream" := "Step 1/1 : FROM ubuntu:22.04"]};
    {["aux" := "sha256:0"]};
    {["stream" := " Successfully built"]} ].

Definition sample_images_build : string → unit → world → exn + list log_entry :=
  λ _ _ _, inr sample_log.

Definition failing_shell : string → world → result HandlerRet * FS :=
  λ _ w, (Raise (ExternalError "CompileError" [] (encode "make: Error 1")), fs w).

Definition quiet_shell : string → world → result HandlerRet * FS :=
  λ _ w, (Return (encode "built", []), fs w).

(** Modelled from the spec: [zip_step_returns] of [fpb_tools.utils] is not
    among the sources; section 4.4 has it concatenate the stdout streams in
    input order and the stderr streams in input order. *)
Definition concat_step_returns (results : list HandlerRet) : HandlerRet :=
  (concat (fst <$> results), concat (snd <$> results)).

(** The world in which the compile step of [make_dev] starts when the output
    directory is there or has been created: [call] is the entry event. *)
Definition after_output_dir (call : event) (dev_out : Path) (w : world) : world :=
  match stat (fs w) dev_out with
  | inr _ => World (fs w) (trace w ++ [call])
  | inl _ => World (<[dev_out := Dir]> (fs w)) (trace w ++ [call; EvMkdir dev_out])
  end.

(** What [make_dev] may do to the host file system: read the two artifacts,
    write the image, create the output directory. *)
Definition make_dev_access (dev_out : Path) (dev_name : string) (ev : event) : Prop :=
  match ev with
  | EvRead p =>
      p = joinpath dev_out [dev_name +:+ ".bin"] ∨
      p = joinpath dev_out [dev_name +:+ ".eeprom"]
  | EvWrite p _ => p = joinpath dev_out [dev_name +:+ ".img"]
  | EvMkdir p => p = dev_out
  | _ => True
  end.

(** An output directory without artifacts. *)
Definition bare_world : world := World (<[["out"] := Dir]> ∅) [].

(** ** Strings *)

Lemma string_app_assoc (s1 s2 s3 : string) :
  (s1 +:+ s2) +:+ s3 = s1 +:+ s2 +:+ s3.
Proof.
  induction s1 as [| a s1 IH]; [done |].
  change (String a ((s1 +:+ s2) +:+ s3) = String a (s1 +:+ s2 +:+ s3)).
  by rewrite IH.
Qed.

Lemma string_app_length (s1 s2 : string) :
  String.length (s1 +:+ s2) = String.length s1 + String.length s2.
Proof.
  induction s1 as [| a s1 IH]; [done |].
  change (S (String.length (s1 +:+ s2)) = S (String.length s1 + String.length s2)).
  by rewrite IH.
Qed.

Lemma string_app_inj_r (s1 s2 r : string) : s1 +:+ r = s2 +:+ r → s1 = s2.
Proof.
  revert s2. induction s1 as [| a s1 IH]; intros [| b s2] Heq.
  - done.
  - apply (f_equal String.length) in Heq.
    rewrite !string_app_length in Heq. simpl in Heq. lia.
  - apply (f_equal String.length) in Heq.
    rewrite !string_app_length in Heq. simpl in Heq. lia.
  - change (String a (s1 +:+ r) = String b (s2 +:+ r)) in Heq.
    injection Heq as -> Heq. f_equal. by apply IH.
Qed.

Lemma string_app_nil_r (s : string) : s +:+ EmptyString = s.
Proof.
  induction s as [| a s IH]; [done |].
  change (String a (s +:+ EmptyString) = String a s). by rewrite IH.
Qed.

Lemma string_concat_cons (x : string) (l : list string) :
  String.concat EmptyString (x :: l) = x +:+ String.concat EmptyString l.
Proof. destruct l; simpl; [by rewrite string_app_nil_r | done]. Qed.

Lemma string_concat_app (l1 l2 : list string) :
  String.concat EmptyString (l1 ++ l2)
  = String.concat EmptyString l1 +:+ String.concat EmptyString l2.
Proof.
  induction l1 as [| x l1 IH]; [done |].
  rewrite <- app_comm_cons, !string_concat_cons, IH.
  by rewrite string_app_assoc.
Qed.

(** Two concatenations that differ in one element only are equal only when
    that element is the same. *)
Lemma string_concat_inj_middle (l1 l2 : list string) (x y : string) :
  String.concat EmptyString (l1 ++ x :: l2)
  = String.concat EmptyString (l1 ++ y :: l2) →
  x = y.
Proof.
  rewrite !string_concat_app, !string_concat_cons. intros Heq.
  apply (inj (String.append _)) in Heq. by apply string_app_inj_r in Heq.
Qed.

(** ** Padding *)

Lemma ljust_long (d : bytes) w f : w ≤ length d → ljust d w f = d.
Proof. intros Hw. unfold ljust. case_decide; [done | lia]. Qed.

Lemma ljust_short (d : bytes) w f :
  length d ≤ w → ljust d w f = d ++ replicate (w - length d) f.
Proof.
  intros Hw. unfold ljust. case_decide as Hle; [| done].
  replace (w - length d) with 0 by lia. by rewrite app_nil_r.
Qed.

Lemma ljust_length (d : bytes) w f : length (ljust d w f) = length d `max` w.
Proof.
  unfold ljust. case_decide.
  - lia.
  - rewrite length_app, length_replicate. lia.
Qed.

Lemma image_of_length F E (b e : bytes) :
  length (image_of F E b e) = (length b `max` F) + (length e `max` E).
Proof. unfold image_of. by rewrite length_app, !ljust_length. Qed.

(** ** Path resolution *)

Lemma entry_insert_ne (fs : FS) p q v : p ≠ q → entry (<[p:=v]> fs) q = entry fs q.
Proof. intros Hne. destruct q; [done |]. simpl. by rewrite lookup_insert_ne. Qed.

Lemma entry_insert_eq (fs : FS) p v : p ≠ [] → entry (<[p:=v]> fs) p = Some v.
Proof. intros Hne. destruct p; [done |]. simpl. by rewrite lookup_insert_eq. Qed.

Lemma walk_inr (fs : FS) cur rest n :
  walk fs cur rest = inr n ↔
  entry fs (cur ++ rest) = Some n ∧
  ∀ k, k < length rest → entry fs (cur ++ take k rest) = Some Dir.
Proof.
  revert cur. induction rest as [| c rest IH]; intros cur; simpl.
  - rewrite app_nil_r. destruct (entry fs cur) as [m |]; split.
    + intros [= ->]. split; [done | intros; lia].
    + by intros [[= ->] _].
    + done.
    + by intros [? _].
  - destruct (entry fs cur) as [[d |] |] eqn:Hcur; split; try done.
    + intros [_ Hall]. specialize (Hall 0 ltac:(lia)). simpl in Hall.
      rewrite app_nil_r in Hall. congruence.
    + intros Hw. apply IH in Hw as [Hn Hall].
      rewrite <- app_assoc in Hn. split; [done |].
      intros [| k] Hk; simpl.
      * by rewrite app_nil_r.
      * replace (cur ++ c :: take k rest) with ((cur ++ [c]) ++ take k rest)
          by (by rewrite <- app_assoc).
        apply Hall. lia.
    + intros [Hn Hall]. apply IH. rewrite <- app_assoc. split; [done |].
      intros k Hk. rewrite <- app_assoc. apply (Hall (S k)). lia.
    + intros [_ Hall]. specialize (Hall 0 ltac:(lia)). simpl in Hall.
      rewrite app_nil_r in Hall. congruence.
Qed.

Lemma stat_inr (fs : FS) p n :
  stat fs p = inr n ↔
  entry fs p = Some n ∧ ∀ k, k < length p → entry fs (take k p) = Some Dir.
Proof. unfold stat. by rewrite walk_inr. Qed.

Lemma walk_inl_app (fs : FS) cur r1 r2 k :
  walk fs cur r1 = inl k → walk fs cur (r1 ++ r2) = inl k.
Proof.
  revert cur. induction r1 as [| c r1 IH]; intros cur; simpl.
  - destruct (entry fs cur) as [m |] eqn:Hcur; [done |].
    intros [= <-]. destruct r2; simpl; by rewrite Hcur.
  - destruct (entry fs cur) as [[d |] |]; [done | apply IH | done].
Qed.

Lemma walk_inl_kind (fs : FS) cur rest k :
  walk fs cur rest = inl k → k = FileNotFoundError ∨ k = NotADirectoryError.
Proof.
  revert cur. induction rest as [| c rest IH]; intros cur; simpl.
  - destruct (entry fs cur); [done | intros [= <-]; by left].
  - destruct (entry fs cur) as [[d |] |].
    + intros [= <-]. by right.
    + apply IH.
    + intros [= <-]. by left.
Qed.

(** A path below a path that does not resolve does not resolve either, with
    the same error. *)
Lemma stat_inl_joinpath (fs : FS) p q k :
  stat fs p = inl k → stat fs (joinpath p q) = inl k.
Proof. apply walk_inl_app. Qed.

Lemma writable_prefixes (fs : FS) p :
  writable fs p = true →
  p ≠ [] ∧ stat fs p ≠ inr Dir ∧
  ∀ k, k < length p → entry fs (take k p) = Some Dir.
Proof.
  unfold writable. destruct (stat fs p) as [k | [d |]] eqn:Hp; [| | done].
  - destruct (stat fs (parent p)) as [| [|]] eqn:Hpar; try done. intros _.
    assert (p ≠ []) as Hne by (intros ->; done).
    split; [done |]. split; [done |].
    apply stat_inr in Hpar as [Hlast Hall]. unfold parent in *.
    assert (0 < length p) by (destruct p; [done | simpl; lia]).
    intros j Hj. destruct (decide (j = length p - 1)) as [-> | Hneq]; [done |].
    specialize (Hall j). rewrite length_take, take_take in Hall.
    replace (j `min` (length p - 1)) with j in Hall by lia. apply Hall. lia.
  - intros _. apply stat_inr in Hp as [Hlast Hall].
    split; [by intros -> |]. done.
Qed.

Lemma stat_insert_eq (fs : FS) p v :
  writable fs p = true → stat (<[p:=v]> fs) p = inr v.
Proof.
  intros (Hne & _ & Hall)%writable_prefixes. apply stat_inr.
  split; [by apply entry_insert_eq |].
  intros k Hk. rewrite entry_insert_ne; [by apply Hall |].
  intros Heq. apply (f_equal length) in Heq. rewrite length_take in Heq. lia.
Qed.

Lemma stat_insert_ne (fs : FS) p v q n :
  stat fs q = inr n → p ≠ q → stat fs p ≠ inr Dir →
  stat (<[p:=v]> fs) q = inr n.
Proof.
  intros [Hq Hall]%stat_inr Hne Hp. apply stat_inr.
  split; [by rewrite entry_insert_ne |].
  intros k Hk. rewrite entry_insert_ne; [by apply Hall |].
  intros ->. apply Hp, stat_inr. split; [by apply Hall |].
  intros j Hj. rewrite length_take in Hj. rewrite take_take.
  replace (j `min` k) with j by lia. apply Hall. lia.
Qed.

Lemma contents_insert_eq (fs : FS) p d :
  writable fs p = true → contents (<[p := File d]> fs) p = Some d.
Proof. intros Hw. unfold contents. by rewrite stat_insert_eq. Qed.

Lemma contents_insert_ne (fs : FS) p d q :
  writable fs p = true → p ≠ q →
  is_Some (contents fs q) → contents (<[p := File d]> fs) q = contents fs q.
Proof.
  intros (_ & Hp & _)%writable_prefixes Hne [b Hb]. unfold contents in *.
  destruct (stat fs q) as [| [b' |]] eqn:Hq; try done.
  by rewrite (stat_insert_ne _ _ _ _ _ Hq Hne Hp).
Qed.

(** ** The file operations, run *)

Lemma read_bytes_run w p d :
  contents (fs w) p = Some d →
  read_bytes p w = (Return d, World (fs w) (trace w ++ [EvRead p])).
Proof.
  unfold contents, read_bytes. destruct (stat (fs w) p) as [| [b |]]; try done.
  by intros [= ->].
Qed.

Lemma read_bytes_fail w p :
  contents (fs w) p = None → ∃ k, read_bytes p w = (Raise (OSError k p), w).
Proof.
  unfold contents, read_bytes. destruct (stat (fs w) p) as [k | [b |]]; try done.
  all: intros _; eauto.
Qed.

Lemma write_bytes_run w p d :
  writable (fs w) p = true →
  write_bytes p d w =
    (Return (length d), World (<[p := File d]> (fs w)) (trace w ++ [EvWrite p d])).
Proof.
  unfold writable, write_bytes.
  destruct (stat (fs w) p) as [k | [b |]]; try done.
  by destruct (stat (fs w) (parent p)) as [| [|]].
Qed.

Lemma write_bytes_fail w p d :
  writable (fs w) p = false → ∃ k, write_bytes p d w = (Raise (OSError k p), w).
Proof.
  unfold writable, write_bytes.
  destruct (stat (fs w) p) as [k | [b |]]; try done; [| eauto].
  destruct (stat (fs w) (parent p)) as [| [|]]; try done; eauto.
Qed.

(** ** [package_device], run *)

Section PackageDevice.
Context (F E : nat) (bin_path eeprom_path image_path : Path).

Local Abbreviation package_device_events :=
  (package_device_events F E bin_path eeprom_path image_path).

Lemma package_device_run w b e :
  contents (fs w) bin_path = Some b →
  contents (fs w) eeprom_path = Some e →
  writable (fs w) image_path = true →
  package_device F E bin_path eeprom_path image_path w =
    (Return tt,
     World (<[image_path := File (image_of F E b e)]> (fs w))
           (trace w ++ package_device_events b e)).
Proof.
  intros Hb He Hw. unfold package_device, bind, emit, ret.
  rewrite (read_bytes_run _ _ b) by done. simpl.
  rewrite (read_bytes_run _ _ e) by done. simpl.
  rewrite write_bytes_run by done. simpl.
  by rewrite <- !app_assoc.
Qed.

(** Every call either completes as [package_device_run] says or raises the
    OSError of the operation that failed, with the file system as it
    was and only the reads made so far in the trace. *)
Lemma package_device_cases w :
  (∃ b e,
      contents (fs w) bin_path = Some b ∧
      contents (fs w) eeprom_path = Some e ∧
      writable (fs w) image_path = true ∧
      package_device F E bin_path eeprom_path image_path w =
        (Return tt,
         World (<[image_path := File (image_of F E b e)]> (fs w))
               (trace w ++ package_device_events b e))) ∨
  (∃ k p n,
      n < 3 ∧
      package_device F E bin_path eeprom_path image_path w =
        (Raise (OSError k p),
         World (fs w)
               (trace w ++
                  take (S n) [EvCallPackageDevice bin_path eeprom_path image_path;
                              EvRead bin_path; EvRead eeprom_path]))).
Proof.
  destruct (contents (fs w) bin_path) as [b |] eqn:Hb.
  - destruct (contents (fs w) eeprom_path) as [e |] eqn:He.
    + destruct (writable (fs w) image_path) eqn:Hw.
      * left. exists b, e. by rewrite (package_device_run w b e).
      * right. unfold package_device, bind, emit, ret.
        rewrite (read_bytes_run _ _ b) by done. simpl.
        rewrite (read_bytes_run _ _ e) by done. simpl.
        destruct (write_bytes_fail
                    (World (fs w)
                       (((trace w ++ [EvCallPackageDevice bin_path eeprom_path image_path])
                           ++ [EvRead bin_path]) ++ [EvRead eeprom_path]))
                    image_path
                    (ljust b F Byte.xff ++ ljust e E Byte.xff) Hw) as [k ->].
        exists k, image_path, 2. split; [lia |]. simpl. by rewrite <- !app_assoc.
    + right. unfold package_device, bind, emit, ret.
      rewrite (read_bytes_run _ _ b) by done. simpl.
      destruct (read_bytes_fail
                  (World (fs w)
                     ((trace w ++ [EvCallPackageDevice bin_path eeprom_path image_path])
                        ++ [EvRead bin_path]))
                  eeprom_path He) as [k ->].
      exists k, eeprom_path, 1. split; [lia |]. simpl. by rewrite <- !app_assoc.
  - right. unfold package_device, bind, emit, ret.
    destruct (read_bytes_fail
                (World (fs w)
                   (trace w ++ [EvCallPackageDevice bin_path eeprom_path image_path]))
                bin_path Hb) as [k ->].
    exists k, bin_path, 0. split; [lia | done].
Qed.
End PackageDevice.

Lemma events_of_run {A} (m : M A) w r f evs :
  m w = (r, World f (trace w ++ evs)) → events_of m w = evs.
Proof. intros Hm. unfold events_of. rewrite Hm. simpl. apply drop_app_length. Qed.

(** ** Properties of [package_device] *)

Section PackageDeviceProperties.
Context (F E : nat) (bin_path eeprom_path image_path : Path).

Local Abbreviation package := (package_device F E bin_path eeprom_path image_path).

(** C2.  When the binary [b] is at most [FW_FLASH_SIZE] bytes and the EEPROM
    data [e] at most [FW_EEPROM_SIZE] bytes, [package_device] completes and
    the one file it writes, [image_path], holds exactly
    [FW_FLASH_SIZE + FW_EEPROM_SIZE] bytes: [b], then 0xFF up to the flash
    size, then [e], then 0xFF up to the end.  (The inputs are readable files
    and [image_path] can be written.) *)
Theorem package_device_layout w b e :
  contents (fs w) bin_path = Some b →
  contents (fs w) eeprom_path = Some e →
  writable (fs w) image_path = true →
  length b ≤ F →
  length e ≤ E →
  ∃ image w',
    package w = (Return tt, w') ∧
    contents (fs w') image_path = Some image ∧
    List.filter is_write (events_of package w) = [EvWrite image_path image] ∧
    length image = F + E ∧
    take (length b) image = b ∧
    take (F - length b) (drop (length b) image) = replicate (F - length b) Byte.xff ∧
    take (length e) (drop F image) = e ∧
    drop (F + length e) image = replicate (E - length e) Byte.xff.
Proof.
  intros Hb He Hw HbF HeE.
  pose proof (package_device_run F E _ _ _ w b e Hb He Hw) as Hrun.
  eexists (image_of F E b e), _. split; [exact Hrun |].
  split; [simpl; by apply contents_insert_eq |].
  split; [by rewrite (events_of_run _ _ _ _ _ Hrun) |].
  unfold image_of. rewrite (ljust_short b), (ljust_short e) by done.
  set (pb := replicate (F - length b) Byte.xff).
  set (pe := replicate (E - length e) Byte.xff).
  assert (length pb = F - length b) as Hpb by apply length_replicate.
  assert (length pe = E - length e) as Hpe by apply length_replicate.
  split; [rewrite !length_app; lia |].
  split; [by rewrite <- !app_assoc, take_app_length |].
  split.
  { rewrite <- !app_assoc, drop_app_length.
    rewrite <- Hpb. by rewrite take_app_length. }
  assert (drop F ((b ++ pb) ++ e ++ pe) = e ++ pe) as Hdrop.
  { replace F with (length (b ++ pb)) at 1 by (rewrite length_app; lia).
    apply drop_app_length. }
  split; [by rewrite Hdrop, take_app_length |].
  rewrite <- drop_drop, Hdrop. apply drop_app_length.
Qed.

(** C1, as amended.  There is no size check: when the binary is longer than
    [FW_FLASH_SIZE] or the EEPROM data longer than [FW_EEPROM_SIZE],
    [package_device] still completes; an oversized input is taken as it is,
    without padding, and the image written to [image_path] is longer than
    [FW_FLASH_SIZE + FW_EEPROM_SIZE]. *)
Theorem package_device_oversize w b e :
  contents (fs w) bin_path = Some b →
  contents (fs w) eeprom_path = Some e →
  writable (fs w) image_path = true →
  F < length b ∨ E < length e →
  ∃ w',
    package w = (Return tt, w') ∧
    contents (fs w') image_path = Some (image_of F E b e) ∧
    List.filter is_write (events_of package w)
      = [EvWrite image_path (image_of F E b e)] ∧
    F + E < length (image_of F E b e) ∧
    (F < length b → ljust b F Byte.xff = b) ∧
    (E < length e → ljust e E Byte.xff = e).
Proof.
  intros Hb He Hw Hbig.
  pose proof (package_device_run F E _ _ _ w b e Hb He Hw) as Hrun.
  eexists. split; [exact Hrun |].
  split; [simpl; by apply contents_insert_eq |].
  split; [by rewrite (events_of_run _ _ _ _ _ Hrun) |].
  split; [rewrite image_of_length; lia |].
  split; intros; apply ljust_long; lia.
Qed.

(** C8.  The image depends on the contents of the two input files only: two
    calls that complete, in any two worlds where [bin_path] holds the same
    bytes and [eeprom_path] holds the same bytes, leave the same bytes at
    [image_path], namely [image_of] of the two inputs. *)
Theorem package_device_deterministic w1 w2 :
  contents (fs w1) bin_path = contents (fs w2) bin_path →
  contents (fs w1) eeprom_path = contents (fs w2) eeprom_path →
  fst (package w1) = Return tt →
  fst (package w2) = Return tt →
  ∃ b e,
    contents (fs w1) bin_path = Some b ∧
    contents (fs w1) eeprom_path = Some e ∧
    contents (fs (snd (package w1))) image_path = Some (image_of F E b e) ∧
    contents (fs (snd (package w2))) image_path = Some (image_of F E b e).
Proof.
  intros Hbin Heep H1 H2.
  destruct (package_device_cases F E bin_path eeprom_path image_path w1)
    as [(b1 & e1 & Hb1 & He1 & Hw1 & Hr1) | (k & p & n & _ & Hr1)];
    [| rewrite Hr1 in H1; done].
  destruct (package_device_cases F E bin_path eeprom_path image_path w2)
    as [(b2 & e2 & Hb2 & He2 & Hw2 & Hr2) | (k & p & n & _ & Hr2)];
    [| rewrite Hr2 in H2; done].
  assert (b2 = b1) as -> by congruence.
  assert (e2 = e1) as -> by congruence.
  exists b1, e1. rewrite Hr1, Hr2. simpl.
  by rewrite !contents_insert_eq.
Qed.

(** C10, as amended.  Every call of [package_device] changes no entry of the
    file system but [image_path] and creates no directory; it either fails
    having written nothing, or completes having read the two inputs and
    written [image_path] once, replacing all of its contents by the image.
    The file at [bin_path] is as it was when [image_path] is another
    path, and so is the file at [eeprom_path]; an input that is itself the
    [image_path] holds the image afterwards. *)
Theorem package_device_writes_image_only w :
  (∀ q : Path, q ≠ image_path → fs (snd (package w)) !! q = fs w !! q) ∧
  List.filter is_mkdir (events_of package w) = [] ∧
  ((∃ e, fst (package w) = Raise e) ∧
     fs (snd (package w)) = fs w ∧
     List.filter is_write (events_of package w) = []
   ∨
   (∃ b e,
     fst (package w) = Return tt ∧
     contents (fs w) bin_path = Some b ∧
     contents (fs w) eeprom_path = Some e ∧
     events_of package w =
       [ EvCallPackageDevice bin_path eeprom_path image_path;
         EvRead bin_path; EvRead eeprom_path;
         EvWrite image_path (image_of F E b e) ] ∧
     fs (snd (package w)) = <[image_path := File (image_of F E b e)]> (fs w) ∧
     contents (fs (snd (package w))) image_path = Some (image_of F E b e))) ∧
  (image_path ≠ bin_path →
   contents (fs (snd (package w))) bin_path = contents (fs w) bin_path) ∧
  (image_path ≠ eeprom_path →
   contents (fs (snd (package w))) eeprom_path = contents (fs w) eeprom_path).
Proof.
  destruct (package_device_cases F E bin_path eeprom_path image_path w)
    as [(b & e & Hb & He & Hw & Hr) | (k & p & n & Hn & Hr)].
  - rewrite (events_of_run _ _ _ _ _ Hr), Hr. simpl.
    split; [intros q Hq; by rewrite lookup_insert_ne |].
    split; [done |].
    split.
    { right. exists b, e. do 5 (split; [done |]). by apply contents_insert_eq. }
    split; intros Hne; apply contents_insert_ne; by rewrite ?Hb, ?He.
  - rewrite (events_of_run _ _ _ _ _ Hr), Hr. simpl.
    split; [done |].
    assert (n = 0 ∨ n = 1 ∨ n = 2) as [-> | [-> | ->]] by lia;
      (split; [done |]); (split; [left; eauto | done]).
Qed.

(** Repeating a completed call with an [image_path] other than the inputs
    completes again and leaves the same file system. *)
Lemma package_device_twice w :
  image_path ≠ bin_path →
  image_path ≠ eeprom_path →
  fst (package w) = Return tt →
  fst (package (snd (package w))) = Return tt ∧
  fs (snd (package (snd (package w)))) = fs (snd (package w)).
Proof.
  intros Hnb Hne H1.
  destruct (package_device_cases F E bin_path eeprom_path image_path w)
    as [(b & e & Hb & He & Hw & Hr) | (k & p & n & _ & Hr)];
    [| rewrite Hr in H1; done].
  rewrite Hr. simpl.
  rewrite (package_device_run F E _ _ _ _ b e); simpl.
  - split; [done |]. apply insert_insert_eq.
  - rewrite contents_insert_ne; by rewrite ?Hb.
  - rewrite contents_insert_ne; by rewrite ?He.
  - unfold writable. by rewrite stat_insert_eq.
Qed.
End PackageDeviceProperties.

(** ** [make_dev], run *)

Section MakeDev.
Context (F E : nat) (run_shell_oracle : string → world → result HandlerRet * FS).
Context (image name : string) (design : Path) (deployment dev_name : string)
  (dev_in dev_out : Path) (defines make_target : string).

Local Abbreviation make_dev_call :=
  (make_dev F E run_shell_oracle image name design deployment dev_name dev_in
     dev_out defines make_target).
Local Abbreviation from_compile :=
  (make_dev_from_compile F E run_shell_oracle image name deployment dev_name
     (joinpath design dev_in) dev_out defines make_target).
Local Abbreviation cmd :=
  (make_dev_cmd image name deployment dev_name (joinpath design dev_in) dev_out
     defines make_target).
Local Abbreviation call :=
  (EvCallMakeDev image name design deployment dev_name dev_in dev_out defines
     make_target).
Local Abbreviation bin_path := (joinpath dev_out [dev_name +:+ ".bin"]).
Local Abbreviation eeprom_path := (joinpath dev_out [dev_name +:+ ".eeprom"]).
Local Abbreviation image_path := (joinpath dev_out [dev_name +:+ ".img"]).
Local Abbreviation package_reads :=
  [EvCallPackageDevice bin_path eeprom_path image_path;
   EvRead bin_path; EvRead eeprom_path].

Lemma make_dev_dir_exists w n :
  stat (fs w) dev_out = inr n →
  make_dev_call w = from_compile (World (fs w) (trace w ++ [call])).
Proof.
  intros Hout. unfold make_dev, make_dev_from_compile, resolve.
  unfold bind at 1. unfold emit. unfold bind at 1. unfold path_exists. simpl.
  rewrite Hout. simpl. by unfold bind at 1, ret.
Qed.

Lemma make_dev_dir_created w k :
  stat (fs w) dev_out = inl k →
  stat (fs w) (parent dev_out) = inr Dir →
  make_dev_call w =
    from_compile (World (<[dev_out := Dir]> (fs w))
                    (trace w ++ [call; EvMkdir dev_out])).
Proof.
  intros Hout Hpar. unfold make_dev, make_dev_from_compile, resolve.
  unfold bind at 1. unfold emit. unfold bind at 1. unfold path_exists. simpl.
  rewrite Hout. simpl. unfold bind at 1, mkdir. simpl.
  rewrite Hout, Hpar. by rewrite <- app_assoc.
Qed.

Lemma make_dev_dir_error w k :
  stat (fs w) dev_out = inl k →
  stat (fs w) (parent dev_out) ≠ inr Dir →
  ∃ k', make_dev_call w =
          (Raise (OSError k' dev_out), World (fs w) (trace w ++ [call])).
Proof.
  intros Hout Hpar. unfold make_dev, resolve.
  unfold bind at 1. unfold emit. unfold bind at 1. unfold path_exists. simpl.
  rewrite Hout. simpl. unfold bind at 1, mkdir. simpl. rewrite Hout.
  destruct (stat (fs w) (parent dev_out)) as [k' | [d |]]; [| | done]; eauto.
Qed.

(** The first step: the output directory is there already, or is created, or
    [mkdir] raises and the call ends before the compile step. *)
Lemma make_dev_prepare w :
  (∃ n, stat (fs w) dev_out = inr n ∧
        make_dev_call w = from_compile (World (fs w) (trace w ++ [call]))) ∨
  (∃ k, stat (fs w) dev_out = inl k ∧
        stat (fs w) (parent dev_out) = inr Dir ∧
        make_dev_call w =
          from_compile (World (<[dev_out := Dir]> (fs w))
                          (trace w ++ [call; EvMkdir dev_out]))) ∨
  (∃ k k', stat (fs w) dev_out = inl k ∧
           stat (fs w) (parent dev_out) ≠ inr Dir ∧
           make_dev_call w =
             (Raise (OSError k' dev_out), World (fs w) (trace w ++ [call]))).
Proof.
  destruct (stat (fs w) dev_out) as [k | n] eqn:Hout.
  - right.
    assert (stat (fs w) (parent dev_out) = inr Dir ∨
            stat (fs w) (parent dev_out) ≠ inr Dir) as [Hpar | Hpar]
      by (destruct (stat (fs w) (parent dev_out)) as [| [|]]; auto).
    + left. exists k. eauto using make_dev_dir_created.
    + right. destruct (make_dev_dir_error w k Hout Hpar) as [k' Hk']. eauto.
  - left. exists n. eauto using make_dev_dir_exists.
Qed.

Lemma make_dev_from_compile_run w :
  from_compile w =
    match run_shell_oracle cmd w with
    | (Raise e, fs2) =>
        (Raise e, World fs2 (trace w ++ [EvRunShell cmd (Raise e)]))
    | (Return o, fs2) =>
        match package_device F E bin_path eeprom_path image_path
                (World fs2 (trace w ++ [EvRunShell cmd (Return o)])) with
        | (Return _, w') => (Return o, w')
        | (Raise e, w') => (Raise e, w')
        end
    end.
Proof.
  unfold make_dev_from_compile. unfold bind at 1. unfold run_shell.
  destruct (run_shell_oracle cmd w) as [[o | e] fs2]; [| done].
  unfold bind at 1.
  by destruct (package_device _ _ _ _ _ _) as [[[] | e] w'].
Qed.

(** From the compile step on: the command raises; or it returns and the
    packaging completes; or it returns and the packaging raises. *)
Lemma make_dev_from_compile_cases w :
  (∃ e fs2,
      run_shell_oracle cmd w = (Raise e, fs2) ∧
      from_compile w =
        (Raise e, World fs2 (trace w ++ [EvRunShell cmd (Raise e)]))) ∨
  (∃ o fs2 b e,
      run_shell_oracle cmd w = (Return o, fs2) ∧
      contents fs2 bin_path = Some b ∧
      contents fs2 eeprom_path = Some e ∧
      writable fs2 image_path = true ∧
      from_compile w =
        (Return o,
         World (<[image_path := File (image_of F E b e)]> fs2)
               (trace w ++ EvRunShell cmd (Return o)
                  :: package_device_events F E bin_path eeprom_path image_path b e))) ∨
  (∃ o fs2 k p n,
      run_shell_oracle cmd w = (Return o, fs2) ∧
      n < 3 ∧
      from_compile w =
        (Raise (OSError k p),
         World fs2 (trace w ++ EvRunShell cmd (Return o) :: take (S n) package_reads))).
Proof.
  rewrite make_dev_from_compile_run.
  destruct (run_shell_oracle cmd w) as [[o | e] fs2] eqn:Hsh.
  - right.
    destruct (package_device_cases F E bin_path eeprom_path image_path
                (World fs2 (trace w ++ [EvRunShell cmd (Return o)])))
      as [(b & e & Hb & He & Hw & Hr) | (k & p & n & Hn & Hr)]; rewrite Hr.
    + left. exists o, fs2, b, e. simpl in *. by rewrite <- app_assoc.
    + right. exists o, fs2, k, p, n. simpl in *. by rewrite <- app_assoc.
  - left. by exists e, fs2.
Qed.

(** Every call, in one shape: the events are the entry into [make_dev], the
    creation of the output directory if any, and what the rest of the call
    did. *)
Lemma make_dev_outcomes w :
  ∃ res fs' pre post,
    make_dev_call w = (res, World fs' (trace w ++ call :: pre ++ post)) ∧
    (pre = [] ∨ pre = [EvMkdir dev_out]) ∧
    ((∃ k, res = Raise (OSError k dev_out) ∧ pre = [] ∧ post = [] ∧ fs' = fs w) ∨
     (∃ e, res = Raise e ∧ post = [EvRunShell cmd (Raise e)]) ∨
     (∃ o b e,
         res = Return o ∧
         post = EvRunShell cmd (Return o)
                  :: package_device_events F E bin_path eeprom_path image_path b e) ∨
     (∃ o k p n,
         res = Raise (OSError k p) ∧ n < 3 ∧
         post = EvRunShell cmd (Return o) :: take (S n) package_reads)).
Proof.
  assert (∀ w1 pre,
    trace w1 = trace w ++ call :: pre →
    ∃ res fs' post,
      from_compile w1 = (res, World fs' (trace w ++ call :: pre ++ post)) ∧
      ((∃ e, res = Raise e ∧ post = [EvRunShell cmd (Raise e)]) ∨
       (∃ o b e,
           res = Return o ∧
           post = EvRunShell cmd (Return o)
                    :: package_device_events F E bin_path eeprom_path image_path b e) ∨
       (∃ o k p n,
           res = Raise (OSError k p) ∧ n < 3 ∧
           post = EvRunShell cmd (Return o) :: take (S n) package_reads))) as Hrest.
  { intros w1 pre Htr.
    destruct (make_dev_from_compile_cases w1)
      as [(e & fs2 & _ & ->) | [(o & fs2 & b & e & _ & _ & _ & _ & ->)
                               | (o & fs2 & k & p & n & _ & Hn & ->)]];
      rewrite Htr; do 3 eexists;
      (split; [by rewrite <- app_assoc, <- app_comm_cons |]); eauto 10. }
  destruct (make_dev_prepare w)
    as [(n & _ & ->) | [(k & _ & _ & ->) | (k & k' & _ & _ & ->)]].
  - destruct (Hrest (World (fs w) (trace w ++ [call])) [] eq_refl)
      as (res & fs' & post & -> & Hpost).
    exists res, fs', [], post. eauto.
  - destruct (Hrest (World (<[dev_out:=Dir]> (fs w))
                       (trace w ++ [call; EvMkdir dev_out]))
                [EvMkdir dev_out] eq_refl)
      as (res & fs' & post & -> & Hpost).
    exists res, fs', [EvMkdir dev_out], post. eauto.
  - exists (Raise (OSError k' dev_out)), (fs w), [], []. eauto 10.
Qed.

(** X5.  The compile step is never run twice, and is run once in every
    call that returns, with the command of [make_dev_cmd] and the output
    that the call returns. *)
Lemma make_dev_compiles_at_most_once w :
  length (List.filter is_run_shell (events_of make_dev_call w)) ≤ 1 ∧
  (∀ o, fst (make_dev_call w) = Return o →
        List.filter is_run_shell (events_of make_dev_call w)
          = [EvRunShell cmd (Return o)]).
Proof.
  destruct (make_dev_outcomes w) as (res & fs' & pre & post & Hrun & Hpre & Hpost).
  rewrite (events_of_run _ _ _ _ _ Hrun), Hrun. simpl.
  rewrite List.filter_app.
  destruct Hpre as [-> | ->];
    destruct Hpost as [(k & -> & _ & -> & _) | [(e & -> & ->)
                      | [(o & b & e & -> & ->) | (o & k & p & n & -> & Hn & ->)]]];
    simpl; try (split; [lia | by intros ? [= <-]]).
  all: assert (n = 0 ∨ n = 1 ∨ n = 2) as [-> | [-> | ->]] by lia; simpl;
    (split; [lia | done]).
Qed.

(** When [mkdir] cannot create the output directory the call ends there: no
    command is run and nothing is written. *)
Lemma make_dev_mkdir_error w k :
  stat (fs w) dev_out = inl k →
  stat (fs w) (parent dev_out) ≠ inr Dir →
  ∃ k', make_dev_call w =
          (Raise (OSError k' dev_out), World (fs w) (trace w ++ [call])).
Proof. apply make_dev_dir_error. Qed.

(** The compile step raises: with the output directory in place, an
    exception of [run_shell] is the outcome of the call. *)
Lemma make_dev_compile_raises w n e fs2 :
  stat (fs w) dev_out = inr n →
  run_shell_oracle cmd (World (fs w) (trace w ++ [call])) = (Raise e, fs2) →
  make_dev_call w =
    (Raise e, World fs2 (trace w ++ [call; EvRunShell cmd (Raise e)])).
Proof.
  intros Hout Hsh. rewrite (make_dev_dir_exists w n Hout).
  rewrite make_dev_from_compile_run, Hsh. simpl. by rewrite <- app_assoc.
Qed.

(** The three files of the packaging step are distinct. *)
Lemma make_dev_paths_distinct :
  image_path ≠ bin_path ∧ image_path ≠ eeprom_path ∧ bin_path ≠ eeprom_path.
Proof.
  unfold joinpath.
  repeat split; intros Heq; apply (inj (app dev_out)) in Heq;
    injection Heq as Heq; by apply (inj (String.app dev_name)) in Heq.
Qed.

(** When the compile step, the one [run_shell] invocation of [make_dev],
    raises an exception, the call ends with that exception: the command has
    been run exactly once, [package_device] is not entered and no file, the
    image in particular, is written. *)
Lemma make_dev_compile_error w c e :
  EvRunShell c (Raise e) ∈ events_of make_dev_call w →
  c = cmd ∧
  fst (make_dev_call w) = Raise e ∧
  List.filter is_run_shell (events_of make_dev_call w)
    = [EvRunShell cmd (Raise e)] ∧
  List.filter is_call_package_device (events_of make_dev_call w) = [] ∧
  List.filter is_write (events_of make_dev_call w) = [].
Proof.
  destruct (make_dev_outcomes w) as (res & fs' & pre & post & Hrun & Hpre & Hpost).
  rewrite (events_of_run _ _ _ _ _ Hrun), Hrun. simpl.
  rewrite !List.filter_app.
  destruct Hpost as [(k & -> & _ & -> & _) | [(e' & -> & ->)
                    | [(o & b & e' & -> & ->) | (o & k & p & n & -> & Hn & ->)]]].
  - destruct Hpre as [-> | ->]; simpl; intros Hin; decompose_list_elem_of;
      by simplify_eq.
  - destruct Hpre as [-> | ->]; simpl; intros Hin; decompose_list_elem_of;
      by simplify_eq.
  - unfold package_device_events.
    destruct Hpre as [-> | ->]; simpl; intros Hin; decompose_list_elem_of;
      by simplify_eq.
  - assert (n = 0 ∨ n = 1 ∨ n = 2) as [-> | [-> | ->]] by lia;
      destruct Hpre as [-> | ->]; simpl; intros Hin; decompose_list_elem_of;
      by simplify_eq.
Qed.

(** C3, as amended.  No call runs the compile step twice.  A call that
    returns has run it once.  A call in which it raises has run it once,
    ends with that exception, does not enter [package_device] and writes no
    file, the image in particular.  The one call that does not run it is
    the call that ends in the exception of [mkdir] on the output
    directory. *)
Theorem make_dev_compile_step w :
  length (List.filter is_run_shell (events_of make_dev_call w)) ≤ 1 ∧
  (∀ o, fst (make_dev_call w) = Return o →
        List.filter is_run_shell (events_of make_dev_call w)
          = [EvRunShell cmd (Return o)]) ∧
  (∀ c e, EvRunShell c (Raise e) ∈ events_of make_dev_call w →
          c = cmd ∧
          fst (make_dev_call w) = Raise e ∧
          List.filter is_run_shell (events_of make_dev_call w)
            = [EvRunShell cmd (Raise e)] ∧
          List.filter is_call_package_device (events_of make_dev_call w) = [] ∧
          List.filter is_write (events_of make_dev_call w) = []) ∧
  (List.filter is_run_shell (events_of make_dev_call w) = [] →
   ∃ k, make_dev_call w =
          (Raise (OSError k dev_out), World (fs w) (trace w ++ [call]))).
Proof.
  split; [| split; [| split; [apply make_dev_compile_error |]]].
  all: destruct (make_dev_outcomes w)
         as (res & fs' & pre & post & Hrun & Hpre & Hpost);
       rewrite (events_of_run _ _ _ _ _ Hrun), ?Hrun; simpl;
       rewrite List.filter_app.
  - destruct Hpre as [-> | ->];
      destruct Hpost as [(k & -> & _ & -> & _) | [(e & -> & ->)
                        | [(o & b & e & -> & ->) | (o & k & p & n & -> & Hn & ->)]]];
      simpl; try lia.
    all: assert (n = 0 ∨ n = 1 ∨ n = 2) as [-> | [-> | ->]] by lia; simpl; lia.
  - destruct Hpre as [-> | ->];
      destruct Hpost as [(k & -> & _ & -> & _) | [(e & -> & ->)
                        | [(o & b & e & -> & ->) | (o & k & p & n & -> & Hn & ->)]]];
      simpl; try (by intros ? [= <-]).
    all: by assert (n = 0 ∨ n = 1 ∨ n = 2) as [-> | [-> | ->]] by lia.
  - destruct Hpost as [(k & -> & -> & -> & ->) | [(e & -> & ->)
                      | [(o & b & e & -> & ->) | (o & k & p & n & -> & Hn & ->)]]].
    + intros _. by exists k.
    + destruct Hpre as [-> | ->]; by simpl.
    + destruct Hpre as [-> | ->]; by simpl.
    + assert (n = 0 ∨ n = 1 ∨ n = 2) as [-> | [-> | ->]] by lia;
        destruct Hpre as [-> | ->]; by simpl.
Qed.

(** The exception of [mkdir] on an output directory that cannot be created. *)
Lemma make_dev_dir_error_kind w k :
  stat (fs w) dev_out = inl k →
  stat (fs w) (parent dev_out) ≠ inr Dir →
  ∃ k',
    (k' = FileNotFoundError ∨ k' = NotADirectoryError) ∧
    make_dev_call w =
      (Raise (OSError k' dev_out), World (fs w) (trace w ++ [call])).
Proof.
  intros Hout Hpar. unfold make_dev, resolve.
  unfold bind at 1. unfold emit. unfold bind at 1. unfold path_exists. simpl.
  rewrite Hout. simpl. unfold bind at 1, mkdir. simpl. rewrite Hout.
  destruct (stat (fs w) (parent dev_out)) as [k' | [d |]] eqn:Hp; [| | done].
  - exists k'. split; [by apply walk_inl_kind in Hp | done].
  - exists NotADirectoryError. split; [by right | done].
Qed.

(** C9, as amended.  An output directory that exists is left as it is: no
    [mkdir] takes place, no exception is raised and the compile step starts
    on the file system as it was.  One that does not exist is created,
    once, before the compile step, when its parent is an existing
    directory; otherwise the call ends with the exception of the
    non-recursive [mkdir], FileNotFoundError or NotADirectoryError, and
    nothing is created. *)
Theorem make_dev_output_dir_cases w :
  match stat (fs w) (resolve dev_out) with
  | inr _ => make_dev_call w = from_compile (World (fs w) (trace w ++ [call]))
  | inl _ =>
      match stat (fs w) (parent (resolve dev_out)) with
      | inr Dir =>
          make_dev_call w =
            from_compile (World (<[resolve dev_out := Dir]> (fs w))
                            (trace w ++ [call; EvMkdir (resolve dev_out)])) ∧
          stat (<[resolve dev_out := Dir]> (fs w)) (resolve dev_out) = inr Dir
      | _ =>
          ∃ k,
            (k = FileNotFoundError ∨ k = NotADirectoryError) ∧
            make_dev_call w =
              (Raise (OSError k (resolve dev_out)),
               World (fs w) (trace w ++ [call]))
      end
  end.
Proof.
  unfold resolve.
  destruct (stat (fs w) dev_out) as [k | n] eqn:Hout;
    [| by apply (make_dev_dir_exists w n)].
  destruct (stat (fs w) (parent dev_out)) as [k' | [d |]] eqn:Hpar.
  - apply (make_dev_dir_error_kind w k Hout). by rewrite Hpar.
  - apply (make_dev_dir_error_kind w k Hout). by rewrite Hpar.
  - split; [by apply (make_dev_dir_created w k) |].
    apply stat_insert_eq. unfold writable. by rewrite Hout, Hpar.
Qed.

(** Every command that a call runs is [make_dev_cmd] of its arguments. *)
Lemma make_dev_runs_cmd w :
  Forall (λ ev, ∀ c r, ev = EvRunShell c r → c = cmd)
    (events_of make_dev_call w).
Proof.
  destruct (make_dev_outcomes w) as (res & fs' & pre & post & Hrun & Hpre & Hpost).
  rewrite (events_of_run _ _ _ _ _ Hrun).
  destruct Hpre as [-> | ->];
    destruct Hpost as [(k & -> & _ & -> & _) | [(e' & -> & ->)
                      | [(o & b & e' & -> & ->) | (o & k & p & n & -> & Hn & ->)]]];
    simpl; repeat constructor; try by intros ?? [=].
  all: try (assert (n = 0 ∨ n = 1 ∨ n = 2) as [-> | [-> | ->]] by lia; simpl);
    repeat constructor; by intros ?? [=].
Qed.

(** A call enters [make_dev] once. *)
Lemma make_dev_enters_once w :
  List.filter is_call_make_dev (events_of make_dev_call w) = [call].
Proof.
  destruct (make_dev_outcomes w) as (res & fs' & pre & post & Hrun & Hpre & Hpost).
  rewrite (events_of_run _ _ _ _ _ Hrun). simpl. rewrite List.filter_app.
  destruct Hpre as [-> | ->];
    destruct Hpost as [(k & -> & _ & -> & _) | [(e' & -> & ->)
                      | [(o & b & e' & -> & ->) | (o & k & p & n & -> & Hn & ->)]]];
    simpl; try done.
  all: by assert (n = 0 ∨ n = 1 ∨ n = 2) as [-> | [-> | ->]] by lia.
Qed.

(** C5, as amended.  The command that [make_dev] runs is the concatenation of
    the literals of [make_dev_cmd_parts]; the one after the two bind mounts
    mounts at /secrets the volume named
    image.name.deployment.secrets.vol. *)
Theorem make_dev_secrets_volume :
  make_dev_cmd_parts image name deployment dev_name (joinpath design dev_in)
    dev_out defines make_target !! 3
    = Some (volume_arg (secrets_volume_name image name deployment) "/secrets") ∧
  cmd = String.concat EmptyString
          (make_dev_cmd_parts image name deployment dev_name
             (joinpath design dev_in) dev_out defines make_target) ∧
  ∀ w, Forall (λ ev, ∀ c r, ev = EvRunShell c r → c = cmd)
         (events_of make_dev_call w).
Proof.
  split.
  { unfold make_dev_cmd_parts, volume_arg, secrets_volume_name.
    by rewrite !string_app_assoc. }
  split; [done |]. apply make_dev_runs_cmd.
Qed.
End MakeDev.

(** ** Properties of [car_fob_pair] *)

Section CarFobPair.
Context (F E : nat) (run_shell_oracle : string → world → result HandlerRet * FS).
Context (zip_step_returns : list HandlerRet → HandlerRet).
Context (design : Path) (name deployment car_name : string) (car_out : Path)
  (car_id : Z) (car_in : Path) (image : string).

Local Abbreviation pair :=
  (car_fob_pair F E run_shell_oracle zip_step_returns design name deployment
     car_name car_out car_id car_in image).
Local Abbreviation car_defines := (" CAR_ID=" +:+ str_of_int car_id).
Local Abbreviation build_car :=
  (make_dev F E run_shell_oracle image name design deployment car_name car_in
     car_out car_defines "car").

Lemma car_fob_pair_run w :
  pair w =
    match build_car w with
    | (Return car_output, w') => (Return (zip_step_returns [car_output]), w')
    | (Raise e, w') => (Raise e, w')
    end.
Proof. done. Qed.

(** C6.  [car_fob_pair] enters [make_dev] exactly once, for the car: with
    the make target car and the define CAR_ID=car_id.  It does what that
    one build does, runs no command but the car command, and returns
    [zip_step_returns] of the one result of the build, or raises what the
    build raises. *)
Theorem car_fob_pair_builds_car_only w :
  List.filter is_call_make_dev (events_of pair w)
    = [EvCallMakeDev image name design deployment car_name car_in car_out
         car_defines "car"] ∧
  Forall (λ ev, ∀ c r, ev = EvRunShell c r →
            c = make_dev_cmd image name deployment car_name
                  (joinpath design car_in) car_out car_defines "car")
    (events_of pair w) ∧
  snd (pair w) = snd (build_car w) ∧
  fst (pair w) =
    match fst (build_car w) with
    | Return car_output => Return (zip_step_returns [car_output])
    | Raise e => Raise e
    end.
Proof.
  assert (events_of pair w = events_of build_car w) as ->.
  { unfold events_of. rewrite car_fob_pair_run.
    by destruct (build_car w) as [[o | e] w']. }
  split; [apply make_dev_enters_once |].
  split; [apply make_dev_runs_cmd |].
  rewrite car_fob_pair_run. by destruct (build_car w) as [[o | e] w'].
Qed.
End CarFobPair.

(** ** Properties of [env] *)

Section Env.
Context (tarball : Type).
Context (tar_oracle : FS → Path → string * string → exn + tarball).
Context (from_env_oracle : world → option exn).
Context (images_build_oracle : string → tarball → world → exn + list log_entry).
Context (design : Path) (name image : string) (docker_dir : Path)
  (dockerfile : string).

Local Abbreviation env_call :=
  (env tarball tar_oracle from_env_oracle images_build_oracle design name image
     docker_dir dockerfile).
Local Abbreviation tag := (image +:+ ":" +:+ name).
Local Abbreviation build_dir := (joinpath (resolve design) docker_dir).
Local Abbreviation dockerfile_name := (joinpath build_dir [dockerfile]).

(** The list comprehension of line 49 selects the [stream] entries. *)
Lemma stream_entries_comprehension (logs_raw : list log_entry) :
  (λ d : log_entry, d !!! "stream") <$>
    filter (λ d : log_entry, is_Some (d !! "stream")) logs_raw
  = stream_entries logs_raw.
Proof.
  unfold stream_entries. induction logs_raw as [| d l IH]; [done |].
  rewrite filter_cons. simpl. destruct (d !! "stream") as [s |] eqn:Hd.
  - rewrite decide_True by eauto. rewrite fmap_cons. f_equal; [| done].
    by rewrite lookup_total_alt, Hd.
  - by rewrite decide_False by (by intros [? ?]).
Qed.

(** [env], stage by stage. *)
Lemma env_run w :
  env_call w =
    match read_bytes dockerfile_name w with
    | (Raise e, w1) => (Raise e, w1)
    | (Return df, w1) =>
        match tar_oracle (fs w1) build_dir ("Dockerfile", decode df) with
        | inl e => (Raise e, w1)
        | inr ctx =>
            let w2 := World (fs w1) (trace w1 ++ [EvDockerFromEnv]) in
            match from_env_oracle w1 with
            | Some e => (Raise e, w2)
            | None =>
                let w3 := World (fs w2) (trace w2 ++ [EvImagesBuild tag]) in
                match images_build_oracle tag ctx w2 with
                | inl e => (Raise e, w3)
                | inr logs_raw =>
                    (Return (encode (String.concat EmptyString
                                       (stream_entries logs_raw)), []), w3)
                end
            end
        end
    end.
Proof.
  unfold env, read_text. unfold bind at 1. unfold bind at 1.
  destruct (read_bytes dockerfile_name w) as [[df | e] w1]; [| done].
  unfold ret at 1. unfold bind at 1, tar.
  destruct (tar_oracle (fs w1) build_dir ("Dockerfile", decode df)) as [e | ctx];
    [done |].
  unfold bind at 1, docker_from_env. simpl.
  destruct (from_env_oracle w1) as [e |]; [done |].
  unfold bind at 1, images_build. simpl.
  destruct (images_build_oracle _ _ _) as [e | logs_raw]; [done |].
  unfold ret. by rewrite stream_entries_comprehension.
Qed.

(** C7.  A call of [env] that returns has read the manifest, built the
    context, connected to the runtime and built the image, in this order; it
    returns as stdout the concatenation, in order, of the [stream] entries
    of the build log that the runtime gave, and as stderr the empty byte
    string. *)
Theorem env_success_log w out err :
  fst (env_call w) = Return (out, err) →
  ∃ df ctx logs_raw,
    contents (fs w) dockerfile_name = Some df ∧
    tar_oracle (fs w) build_dir ("Dockerfile", decode df) = inr ctx ∧
    images_build_oracle tag ctx
      (World (fs w) (trace w ++ [EvRead dockerfile_name; EvDockerFromEnv]))
      = inr logs_raw ∧
    out = encode (String.concat EmptyString (stream_entries logs_raw)) ∧
    err = [] ∧
    snd (env_call w) =
      World (fs w)
        (trace w ++ [EvRead dockerfile_name; EvDockerFromEnv; EvImagesBuild tag]).
Proof.
  rewrite env_run.
  destruct (contents (fs w) dockerfile_name) as [df |] eqn:Hdf.
  - rewrite (read_bytes_run _ _ _ Hdf). simpl.
    destruct (tar_oracle (fs w) build_dir ("Dockerfile", decode df))
      as [e | ctx] eqn:Htar; [done |].
    destruct (from_env_oracle _) as [e |]; [done |].
    rewrite <- !app_assoc. simpl.
    destruct (images_build_oracle _ _ _) as [e | logs_raw] eqn:Hbuild; [done |].
    simpl. intros [= <- <-]. by exists df, ctx, logs_raw.
  - destruct (read_bytes_fail _ _ Hdf) as [k ->]. done.
Qed.

(** A call of [env] returns whenever the manifest is a readable file of
    plain text and none of the collaborators raises. *)
Lemma env_returns w df ctx logs_raw :
  contents (fs w) dockerfile_name = Some df →
  plain_text df →
  tar_oracle (fs w) build_dir ("Dockerfile", decode df) = inr ctx →
  from_env_oracle (World (fs w) (trace w ++ [EvRead dockerfile_name])) = None →
  images_build_oracle tag ctx
    (World (fs w) (trace w ++ [EvRead dockerfile_name; EvDockerFromEnv]))
    = inr logs_raw →
  env_call w =
    (Return (encode (String.concat EmptyString (stream_entries logs_raw)), []),
     World (fs w)
       (trace w ++ [EvRead dockerfile_name; EvDockerFromEnv; EvImagesBuild tag])).
Proof.
  intros Hdf _ Htar Hfrom Hbuild. rewrite env_run.
  rewrite (read_bytes_run _ _ _ Hdf). simpl. rewrite Htar, Hfrom.
  rewrite <- !app_assoc. simpl. by rewrite Hbuild.
Qed.

(** C4, as amended.  When the design path does not exist, or the manifest
    docker_dir/dockerfile does not exist below it, [env] raises the OSError
    of opening the manifest, FileNotFoundError (NotADirectoryError when a
    component of the path is a regular file), before anything else: the
    world is as it was and no call to the container runtime has been
    made. *)
Theorem env_missing_manifest w :
  (∃ k, stat (fs w) design = inl k) ∨ (∃ k, stat (fs w) dockerfile_name = inl k) →
  ∃ k,
    (k = FileNotFoundError ∨ k = NotADirectoryError) ∧
    env_call w = (Raise (OSError k dockerfile_name), w) ∧
    exn_class (OSError k dockerfile_name) ≠ "ConfigError" ∧
    List.filter is_docker_call (events_of env_call w) = [].
Proof.
  intros Hmiss.
  assert (∃ k, stat (fs w) dockerfile_name = inl k) as [k Hk].
  { destruct Hmiss as [[k Hk] | Hk]; [| done]. exists k.
    unfold resolve, joinpath. rewrite <- (assoc_L (++)).
    by apply (stat_inl_joinpath _ design). }
  exists k. split; [by apply walk_inl_kind in Hk |].
  assert (env_call w = (Raise (OSError k dockerfile_name), w)) as Hrun.
  { rewrite env_run. unfold read_bytes. by rewrite Hk. }
  split; [done |].
  split; [by destruct k |].
  unfold events_of. rewrite Hrun. simpl. by rewrite drop_all.
Qed.
End Env.

(** ** The properties on the sample data *)

Lemma sample_world_writable : writable sample_fs car_bin = true.
Proof. by vm_compute. Qed.

Lemma oversize_world_bin : contents (fs oversize_world) car_bin = Some oversize_bin.
Proof. apply contents_insert_eq, sample_world_writable. Qed.

Lemma oversize_world_eeprom :
  contents (fs oversize_world) car_eeprom = Some sample_eeprom.
Proof.
  unfold oversize_world. simpl.
  rewrite contents_insert_ne.
  - by vm_compute.
  - by vm_compute.
  - done.
  - exists sample_eeprom. by vm_compute.
Qed.

Lemma oversize_world_writable : writable (fs oversize_world) car_img = true.
Proof. by vm_compute. Qed.

(** C1 fails: with a binary of 0x8001 bytes and a flash region of 0x8000,
    [package_device] raises nothing and writes [car_img], which did not
    exist. *)
Lemma package_device_oversize_counterexample :
  contents (fs oversize_world) car_bin = Some oversize_bin ∧
  scenario_flash_size < length oversize_bin ∧
  fst (package_device scenario_flash_size scenario_eeprom_size
         car_bin car_eeprom car_img oversize_world) = Return tt ∧
  contents (fs oversize_world) car_img = None ∧
  contents
    (fs (snd (package_device scenario_flash_size scenario_eeprom_size
                car_bin car_eeprom car_img oversize_world))) car_img
    = Some (oversize_bin ++ ljust sample_eeprom scenario_eeprom_size Byte.xff).
Proof.
  split; [apply oversize_world_bin |].
  split; [unfold oversize_bin; rewrite length_replicate; lia |].
  rewrite (package_device_run _ _ _ _ _ _ _ _ oversize_world_bin
             oversize_world_eeprom oversize_world_writable).
  split; [done |]. split; [by vm_compute |]. cbn [fst snd fs].
  rewrite contents_insert_eq by apply oversize_world_writable.
  unfold image_of. rewrite (ljust_long oversize_bin); [done |].
  unfold oversize_bin. rewrite length_replicate. lia.
Qed.

Lemma package_device_oversize_witness :
  ∃ w',
    package_device scenario_flash_size scenario_eeprom_size
      car_bin car_eeprom car_img oversize_world = (Return tt, w') ∧
    contents (fs w') car_img
      = Some (image_of scenario_flash_size scenario_eeprom_size
                oversize_bin sample_eeprom) ∧
    scenario_flash_size + scenario_eeprom_size
      < length (image_of scenario_flash_size scenario_eeprom_size
                  oversize_bin sample_eeprom).
Proof.
  destruct (package_device_oversize scenario_flash_size scenario_eeprom_size
              car_bin car_eeprom car_img oversize_world oversize_bin sample_eeprom
              oversize_world_bin oversize_world_eeprom oversize_world_writable)
    as (w' & Hrun & Himg & _ & Hlen & _).
  - left. unfold oversize_bin. rewrite length_replicate. lia.
  - exists w'. split; [exact Hrun |]. split; [exact Himg | exact Hlen].
Defined.

(** The scenario of the specification: 4 bytes of binary and 2 bytes of
    EEPROM data give an image of 0x8800 bytes. *)
Lemma package_device_layout_witness :
  ∃ image,
    contents
      (fs (snd (package_device scenario_flash_size scenario_eeprom_size
                  car_bin car_eeprom car_img sample_world))) car_img
      = Some image ∧
    length image = scenario_flash_size + scenario_eeprom_size ∧
    take 4 image = sample_bin ∧
    take (scenario_flash_size - 4) (drop 4 image)
      = replicate (scenario_flash_size - 4) Byte.xff ∧
    take 2 (drop scenario_flash_size image) = sample_eeprom ∧
    drop (scenario_flash_size + 2) image
      = replicate (scenario_eeprom_size - 2) Byte.xff.
Proof.
  destruct (package_device_layout scenario_flash_size scenario_eeprom_size
              car_bin car_eeprom car_img sample_world sample_bin sample_eeprom)
    as (image & w' & Hrun & Himg & _ & Hlen & Hb & Hpb & He & Hpe).
  - by vm_compute.
  - by vm_compute.
  - by vm_compute.
  - apply Nat.leb_le. by vm_compute.
  - apply Nat.leb_le. by vm_compute.
  - exists image. rewrite Hrun. cbn [fst snd].
    split; [exact Himg |]. split; [exact Hlen |]. split; [exact Hb |].
    split; [exact Hpb |]. split; [exact He | exact Hpe].
Defined.

Lemma package_device_deterministic_witness :
  contents (fs sample_world) car_bin = contents (fs other_world) car_bin ∧
  contents
    (fs (snd (package_device scenario_flash_size scenario_eeprom_size
                car_bin car_eeprom car_img sample_world))) car_img
  = contents
      (fs (snd (package_device scenario_flash_size scenario_eeprom_size
                  car_bin car_eeprom car_img other_world))) car_img.
Proof.
  assert (contents (fs sample_world) car_bin = contents (fs other_world) car_bin)
    as Hbin by (by vm_compute).
  split; [exact Hbin |].
  destruct (package_device_deterministic scenario_flash_size scenario_eeprom_size
              car_bin car_eeprom car_img sample_world other_world Hbin)
    as (b & e & _ & _ & H1 & H2).
  - by vm_compute.
  - by vm_compute.
  - by vm_compute.
  - rewrite H1, H2. reflexivity.
Defined.

(** C10 fails: called with the binary as its image path, [package_device]
    completes and the file at [bin_path], 4 bytes before, holds the image
    afterwards. *)
Lemma package_device_frame_counterexample :
  contents (fs sample_world) car_bin = Some sample_bin ∧
  fst (package_device scenario_flash_size scenario_eeprom_size
         car_bin car_eeprom car_bin sample_world) = Return tt ∧
  contents
    (fs (snd (package_device scenario_flash_size scenario_eeprom_size
                car_bin car_eeprom car_bin sample_world))) car_bin
    = Some (image_of scenario_flash_size scenario_eeprom_size
              sample_bin sample_eeprom) ∧
  image_of scenario_flash_size scenario_eeprom_size sample_bin sample_eeprom
    ≠ sample_bin.
Proof.
  assert (contents (fs sample_world) car_bin = Some sample_bin) as Hb
    by (by vm_compute).
  assert (contents (fs sample_world) car_eeprom = Some sample_eeprom) as He
    by (by vm_compute).
  split; [exact Hb |].
  rewrite (package_device_run _ _ _ _ _ _ _ _ Hb He sample_world_writable).
  split; [done |]. cbn [fst snd fs].
  split; [apply contents_insert_eq, sample_world_writable |].
  intros Heq. apply (f_equal length) in Heq.
  rewrite image_of_length in Heq.
  change (length sample_bin) with 4 in Heq.
  change (length sample_eeprom) with 2 in Heq. lia.
Qed.

Lemma package_device_writes_image_only_witness :
  car_img ≠ car_bin ∧
  car_img ≠ car_eeprom ∧
  contents
    (fs (snd (package_device scenario_flash_size scenario_eeprom_size
                car_bin car_eeprom car_img sample_world))) car_bin
    = Some sample_bin ∧
  contents
    (fs (snd (package_device scenario_flash_size scenario_eeprom_size
                car_bin car_eeprom car_img sample_world))) car_eeprom
    = Some sample_eeprom.
Proof.
  assert (car_img ≠ car_bin) as Hb by done.
  assert (car_img ≠ car_eeprom) as He by done.
  split; [exact Hb |]. split; [exact He |].
  destruct (package_device_writes_image_only scenario_flash_size
              scenario_eeprom_size car_bin car_eeprom car_img sample_world)
    as (_ & _ & _ & Hbin & Heep).
  rewrite (Hbin Hb), (Heep He). split; by vm_compute.
Defined.

(** C3 fails: a build into an output directory whose parent is missing ends
    in the exception of [mkdir] and has run the command not once. *)
Lemma make_dev_compile_step_counterexample :
  make_dev scenario_flash_size scenario_eeprom_size failing_shell
    "ectf" "env" ["design"] "dep" "car" ["car"] ["builds"; "out"] " CAR_ID=5"
    "car" empty_world
  = (Raise (OSError FileNotFoundError ["builds"; "out"]),
     World ∅
       [EvCallMakeDev "ectf" "env" ["design"] "dep" "car" ["car"]
          ["builds"; "out"] " CAR_ID=5" "car"]) ∧
  List.filter is_run_shell
    (events_of
       (make_dev scenario_flash_size scenario_eeprom_size failing_shell
          "ectf" "env" ["design"] "dep" "car" ["car"] ["builds"; "out"]
          " CAR_ID=5" "car")
       empty_world) = [].
Proof. split; by vm_compute. Qed.

(** A build of the car whose compile step fails. *)
Lemma make_dev_compile_step_witness :
  fst (make_dev scenario_flash_size scenario_eeprom_size failing_shell
         "ectf" "env" ["design"] "dep" "car" ["car"] ["out"] " CAR_ID=5" "car"
         sample_world)
    = Raise (ExternalError "CompileError" [] (encode "make: Error 1")) ∧
  List.filter is_run_shell
    (events_of
       (make_dev scenario_flash_size scenario_eeprom_size failing_shell
          "ectf" "env" ["design"] "dep" "car" ["car"] ["out"] " CAR_ID=5" "car")
       sample_world)
    = [EvRunShell
         (make_dev_cmd "ectf" "env" "dep" "car" ["design"; "car"] ["out"]
            " CAR_ID=5" "car")
         (Raise (ExternalError "CompileError" [] (encode "make: Error 1")))] ∧
  List.filter is_write
    (events_of
       (make_dev scenario_flash_size scenario_eeprom_size failing_shell
          "ectf" "env" ["design"] "dep" "car" ["car"] ["out"] " CAR_ID=5" "car")
       sample_world) = [] ∧
  List.filter is_call_package_device
    (events_of
       (make_dev scenario_flash_size scenario_eeprom_size failing_shell
          "ectf" "env" ["design"] "dep" "car" ["car"] ["out"] " CAR_ID=5" "car")
       sample_world) = [].
Proof.
  destruct (make_dev_compile_step scenario_flash_size scenario_eeprom_size
              failing_shell "ectf" "env" ["design"] "dep" "car" ["car"] ["out"]
              " CAR_ID=5" "car" sample_world) as (_ & _ & Hraise & _).
  destruct (Hraise
              (make_dev_cmd "ectf" "env" "dep" "car" ["design"; "car"] ["out"]
                 " CAR_ID=5" "car")
              (ExternalError "CompileError" [] (encode "make: Error 1")))
    as (_ & Hres & Hone & Hpkg & Hwr).
  - vm_compute. apply list_elem_of_further, list_elem_of_here.
  - split; [exact Hres |]. split; [exact Hone |]. split; [exact Hwr | exact Hpkg].
Defined.

(** C9 fails: the output directory builds/car does not exist, its parent
    does not exist either, and the build ends in FileNotFoundError without
    having created it. *)
Lemma make_dev_output_dir_counterexample :
  stat (fs empty_world) ["builds"; "car"] = inl FileNotFoundError ∧
  fst (make_dev scenario_flash_size scenario_eeprom_size quiet_shell
         "ectf" "env" ["design"] "dep" "car" ["car"] ["builds"; "car"]
         " CAR_ID=5" "car" empty_world)
    = Raise (OSError FileNotFoundError ["builds"; "car"]) ∧
  stat
    (fs (snd (make_dev scenario_flash_size scenario_eeprom_size quiet_shell
                "ectf" "env" ["design"] "dep" "car" ["car"] ["builds"; "car"]
                " CAR_ID=5" "car" empty_world)))
    ["builds"; "car"] = inl FileNotFoundError.
Proof. split; [by vm_compute |]. split; by vm_compute. Qed.

(** A build into an existing output directory, one into a directory that is
    yet to be created under the root, and one into a directory whose parent
    is missing. *)
Lemma make_dev_output_dir_cases_witness :
  make_dev scenario_flash_size scenario_eeprom_size quiet_shell
    "ectf" "env" ["design"] "dep" "car" ["car"] ["out"] " CAR_ID=5" "car"
    sample_world
  = make_dev_from_compile scenario_flash_size scenario_eeprom_size quiet_shell
      "ectf" "env" "dep" "car" ["design"; "car"] ["out"] " CAR_ID=5" "car"
      (World sample_fs
         [EvCallMakeDev "ectf" "env" ["design"] "dep" "car" ["car"] ["out"]
            " CAR_ID=5" "car"]) ∧
  (make_dev scenario_flash_size scenario_eeprom_size quiet_shell
     "ectf" "env" ["design"] "dep" "car" ["car"] ["out"] " CAR_ID=5" "car"
     empty_world
   = make_dev_from_compile scenario_flash_size scenario_eeprom_size quiet_shell
       "ectf" "env" "dep" "car" ["design"; "car"] ["out"] " CAR_ID=5" "car"
       (World (<[["out"] := Dir]> ∅)
          [EvCallMakeDev "ectf" "env" ["design"] "dep" "car" ["car"] ["out"]
             " CAR_ID=5" "car"; EvMkdir ["out"]]) ∧
   stat (<[["out"] := Dir]> (∅ : FS)) ["out"] = inr Dir) ∧
  ∃ k,
    (k = FileNotFoundError ∨ k = NotADirectoryError) ∧
    make_dev scenario_flash_size scenario_eeprom_size quiet_shell
      "ectf" "env" ["design"] "dep" "car" ["car"] ["builds"; "out"] " CAR_ID=5"
      "car" empty_world
    = (Raise (OSError k ["builds"; "out"]),
       World ∅
         [EvCallMakeDev "ectf" "env" ["design"] "dep" "car" ["car"]
            ["builds"; "out"] " CAR_ID=5" "car"]).
Proof.
  split; [| split].
  - pose proof (make_dev_output_dir_cases scenario_flash_size scenario_eeprom_size
                  quiet_shell "ectf" "env" ["design"] "dep" "car" ["car"] ["out"]
                  " CAR_ID=5" "car" sample_world) as H.
    change (stat (fs sample_world) (resolve ["out"]))
      with (@inr os_error node Dir) in H.
    exact H.
  - pose proof (make_dev_output_dir_cases scenario_flash_size scenario_eeprom_size
                  quiet_shell "ectf" "env" ["design"] "dep" "car" ["car"] ["out"]
                  " CAR_ID=5" "car" empty_world) as H.
    change (stat (fs empty_world) (resolve ["out"]))
      with (@inl os_error node FileNotFoundError) in H.
    change (stat (fs empty_world) (parent (resolve ["out"])))
      with (@inr os_error node Dir) in H.
    exact H.
  - pose proof (make_dev_output_dir_cases scenario_flash_size scenario_eeprom_size
                  quiet_shell "ectf" "env" ["design"] "dep" "car" ["car"]
                  ["builds"; "out"] " CAR_ID=5" "car" empty_world) as H.
    change (stat (fs empty_world) (resolve ["builds"; "out"]))
      with (@inl os_error node FileNotFoundError) in H.
    change (stat (fs empty_world) (parent (resolve ["builds"; "out"])))
      with (@inl os_error node FileNotFoundError) in H.
    exact H.
Defined.

(** C5 fails: for the image ectf, the environment env and the deployment
    dep, the volume argument of the command names
    ectf.env.dep.secrets.vol; the argument with the name of the
    specification, ectf.env.dep.secrets, is neither that literal nor
    anywhere in the command. *)
Lemma make_dev_secrets_volume_counterexample :
  make_dev_cmd_parts "ectf" "env" "dep" "car" ["design"; "car"] ["out"]
    " CAR_ID=5" "car" !! 3
    = Some " -v ectf.env.dep.secrets.vol:/secrets" ∧
  volume_arg (spec_secrets_volume_name "ectf" "env" "dep") "/secrets"
    = " -v ectf.env.dep.secrets:/secrets" ∧
  " -v ectf.env.dep.secrets.vol:/secrets" ≠ " -v ectf.env.dep.secrets:/secrets" ∧
  String.index 0
    (volume_arg (spec_secrets_volume_name "ectf" "env" "dep") "/secrets")
    (make_dev_cmd "ectf" "env" "dep" "car" ["design"; "car"] ["out"]
       " CAR_ID=5" "car") = None ∧
  String.index 0
    (volume_arg (secrets_volume_name "ectf" "env" "dep") "/secrets")
    (make_dev_cmd "ectf" "env" "dep" "car" ["design"; "car"] ["out"]
       " CAR_ID=5" "car") = Some 57.
Proof.
  split; [by vm_compute |]. split; [by vm_compute |]. split; [done |].
  split; by vm_compute.
Qed.

(** The car build of the scenario: one entry into [make_dev], the car
    command, the image of 12 bytes for regions of 8 and 4 bytes. *)
Example car_fob_pair_sample :
  car_fob_pair 8 4 quiet_shell concat_step_returns
    ["design"] "env" "dep" "car" ["out"] 5 ["car"] "ectf" sample_world
  = (Return (encode "built", []),
     World
       (<[car_img := File (sample_bin ++ replicate 4 Byte.xff
                             ++ sample_eeprom ++ replicate 2 Byte.xff)]> sample_fs)
       [ EvCallMakeDev "ectf" "env" ["design"] "dep" "car" ["car"] ["out"]
           " CAR_ID=5" "car";
         EvRunShell
           (make_dev_cmd "ectf" "env" "dep" "car" ["design"; "car"] ["out"]
              " CAR_ID=5" "car")
           (Return (encode "built", []));
         EvCallPackageDevice car_bin car_eeprom car_img;
         EvRead car_bin; EvRead car_eeprom;
         EvWrite car_img (sample_bin ++ replicate 4 Byte.xff
                            ++ sample_eeprom ++ replicate 2 Byte.xff) ]).
Proof. by vm_compute. Qed.

(** C4 fails: without a design directory [env] raises FileNotFoundError, the
    error of opening the manifest, and no exception of a class ConfigError. *)
Lemma env_missing_design_counterexample :
  stat (fs empty_world) ["design"] = inl FileNotFoundError ∧
  env unit sample_tar sample_from_env sample_images_build
    ["design"] "env" "ectf" ["docker_env"] "build_image.Dockerfile" empty_world
    = (Raise (OSError FileNotFoundError manifest), empty_world) ∧
  exn_class (OSError FileNotFoundError manifest) = "FileNotFoundError" ∧
  exn_class (OSError FileNotFoundError manifest) ≠ "ConfigError".
Proof. split; [by vm_compute |]. split; [by vm_compute |]. by split. Qed.

Lemma env_missing_manifest_witness :
  ∃ k,
    env unit sample_tar sample_from_env sample_images_build
      ["design"] "env" "ectf" ["docker_env"] "build_image.Dockerfile" empty_world
    = (Raise (OSError k manifest), empty_world) ∧
    List.filter is_docker_call
      (events_of
         (env unit sample_tar sample_from_env sample_images_build
            ["design"] "env" "ectf" ["docker_env"] "build_image.Dockerfile")
         empty_world) = [].
Proof.
  destruct (env_missing_manifest unit sample_tar sample_from_env
              sample_images_build ["design"] "env" "ectf" ["docker_env"]
              "build_image.Dockerfile" empty_world)
    as (k & _ & Hrun & _ & Hev).
  - left. exists FileNotFoundError. by vm_compute.
  - exists k. split; [exact Hrun | exact Hev].
Defined.

(** An environment build that succeeds: the two [stream] entries of the
    log, in order, are the stdout; the entry without [stream] is left out. *)
Lemma env_success_log_witness :
  fst (env unit sample_tar sample_from_env sample_images_build
         ["design"] "env" "ectf" ["docker_env"] "build_image.Dockerfile"
         design_world)
    = Return (encode "Step 1/1 : FROM ubuntu:22.04 Successfully built", []) ∧
  snd (env unit sample_tar sample_from_env sample_images_build
         ["design"] "env" "ectf" ["docker_env"] "build_image.Dockerfile"
         design_world)
    = World design_fs [EvRead manifest; EvDockerFromEnv; EvImagesBuild "ectf:env"].
Proof.
  assert (fst (env unit sample_tar sample_from_env sample_images_build
                 ["design"] "env" "ectf" ["docker_env"] "build_image.Dockerfile"
                 design_world)
          = Return (encode "Step 1/1 : FROM ubuntu:22.04 Successfully built", []))
    as Hres by (by vm_compute).
  split; [exact Hres |].
  destruct (env_success_log unit sample_tar sample_from_env sample_images_build
              ["design"] "env" "ectf" ["docker_env"] "build_image.Dockerfile"
              design_world _ _ Hres)
    as (df & ctx & logs_raw & _ & _ & _ & _ & _ & Hsnd).
  exact Hsnd.
Defined.

(** ** Further properties of [package_device] *)

Lemma ljust_replicate (d : bytes) w f :
  ljust d w f = d ++ replicate (w - length d) f.
Proof.
  unfold ljust. case_decide as Hle; [| done].
  replace (w - length d) with 0 by lia. by rewrite app_nil_r.
Qed.

Lemma contents_writable (fs : FS) p d :
  contents fs p = Some d → writable fs p = true.
Proof.
  unfold contents, writable. by destruct (stat fs p) as [| [|]].
Qed.

Section PackageDeviceMore.
Context (F E : nat) (bin_path eeprom_path image_path : Path).

Local Abbreviation package := (package_device F E bin_path eeprom_path image_path).

(** X1.  Whatever the sizes, a call that completes writes the binary, 0xFF
    up to the flash size if the binary is shorter, the EEPROM data, and 0xFF
    up to the EEPROM size if the data is shorter: the image has
    max(len b, flash) + max(len e, eeprom) bytes and the EEPROM data starts
    at offset max(len b, flash). *)
Theorem package_device_image w b e :
  contents (fs w) bin_path = Some b →
  contents (fs w) eeprom_path = Some e →
  writable (fs w) image_path = true →
  ∃ image,
    package w =
      (Return tt,
       World (<[image_path := File image]> (fs w))
             (trace w ++ [EvCallPackageDevice bin_path eeprom_path image_path;
                          EvRead bin_path; EvRead eeprom_path;
                          EvWrite image_path image])) ∧
    contents (fs (snd (package w))) image_path = Some image ∧
    image = b ++ replicate (F - length b) Byte.xff
              ++ e ++ replicate (E - length e) Byte.xff ∧
    length image = (length b `max` F) + (length e `max` E) ∧
    take (length e) (drop (length b `max` F) image) = e.
Proof.
  intros Hb He Hw.
  pose proof (package_device_run F E _ _ _ w b e Hb He Hw) as Hrun.
  exists (image_of F E b e). split; [exact Hrun |].
  split; [rewrite Hrun; simpl; by apply contents_insert_eq |].
  split; [unfold image_of; by rewrite !ljust_replicate, <- app_assoc |].
  split; [apply image_of_length |].
  unfold image_of.
  replace (length b `max` F) with (length (ljust b F Byte.xff))
    by apply ljust_length.
  rewrite drop_app_length, ljust_replicate. by rewrite take_app_length.
Qed.

(** X2.  The first operation that fails decides the exception: an
    unreadable binary raises its OSError before the EEPROM file is looked
    at, an unreadable EEPROM file raises after the binary has been read, and
    an image path that cannot be written raises after both reads.  In each
    case the file system is as it was. *)
Theorem package_device_first_failure w :
  contents (fs w) bin_path = None ∨
  contents (fs w) eeprom_path = None ∨
  writable (fs w) image_path = false →
  ∃ k,
    package w =
      match contents (fs w) bin_path, contents (fs w) eeprom_path with
      | None, _ =>
          (Raise (OSError k bin_path),
           World (fs w)
             (trace w ++ [EvCallPackageDevice bin_path eeprom_path image_path]))
      | Some _, None =>
          (Raise (OSError k eeprom_path),
           World (fs w)
             (trace w ++ [EvCallPackageDevice bin_path eeprom_path image_path;
                          EvRead bin_path]))
      | Some _, Some _ =>
          (Raise (OSError k image_path),
           World (fs w)
             (trace w ++ [EvCallPackageDevice bin_path eeprom_path image_path;
                          EvRead bin_path; EvRead eeprom_path]))
      end.
Proof.
  intros Hfail. unfold package_device, bind, emit, ret.
  destruct (contents (fs w) bin_path) as [b |] eqn:Hb.
  - rewrite (read_bytes_run _ _ b) by done. simpl.
    destruct (contents (fs w) eeprom_path) as [e |] eqn:He.
    + rewrite (read_bytes_run _ _ e) by done. simpl.
      destruct Hfail as [[=] | [[=] | Hw]].
      destruct (write_bytes_fail
                  (World (fs w)
                     (((trace w ++ [EvCallPackageDevice bin_path eeprom_path image_path])
                         ++ [EvRead bin_path]) ++ [EvRead eeprom_path]))
                  image_path
                  (ljust b F Byte.xff ++ ljust e E Byte.xff) Hw) as [k ->].
      exists k. by rewrite <- !app_assoc.
    + destruct (read_bytes_fail
                  (World (fs w)
                     ((trace w ++ [EvCallPackageDevice bin_path eeprom_path image_path])
                        ++ [EvRead bin_path]))
                  eeprom_path He) as [k ->].
      exists k. by rewrite <- !app_assoc.
  - destruct (read_bytes_fail
                (World (fs w)
                   (trace w ++ [EvCallPackageDevice bin_path eeprom_path image_path]))
                bin_path Hb) as [k ->].
    by exists k.
Qed.

(** X3.  Repeating a completed call with an [image_path] other than the
    inputs completes again and leaves the same file system: the second call
    reads the same inputs and overwrites the image with the same bytes. *)
Theorem package_device_repeat w :
  image_path ≠ bin_path →
  image_path ≠ eeprom_path →
  fst (package_device F E bin_path eeprom_path image_path w) = Return tt →
  fst (package_device F E bin_path eeprom_path image_path
         (snd (package_device F E bin_path eeprom_path image_path w)))
    = Return tt ∧
  fs (snd (package_device F E bin_path eeprom_path image_path
             (snd (package_device F E bin_path eeprom_path image_path w))))
    = fs (snd (package_device F E bin_path eeprom_path image_path w)) ∧
  contents (fs (snd (package_device F E bin_path eeprom_path image_path w)))
    bin_path = contents (fs w) bin_path ∧
  contents (fs (snd (package_device F E bin_path eeprom_path image_path w)))
    eeprom_path = contents (fs w) eeprom_path.
Proof.
  intros Hnb Hne H1.
  destruct (package_device_cases F E bin_path eeprom_path image_path w)
    as [(b & e & Hb & He & Hw & Hr) | (k & p & n & _ & Hr)];
    [| rewrite Hr in H1; done].
  rewrite Hr. simpl.
  assert (contents (<[image_path := File (image_of F E b e)]> (fs w)) bin_path
          = Some b) as Hb' by (rewrite contents_insert_ne; by rewrite ?Hb).
  assert (contents (<[image_path := File (image_of F E b e)]> (fs w)) eeprom_path
          = Some e) as He' by (rewrite contents_insert_ne; by rewrite ?He).
  rewrite (package_device_run F E _ _ _ _ b e); simpl; [| done | done |].
  - split; [done |]. split; [apply insert_insert_eq |]. by rewrite Hb', He', Hb, He.
  - unfold writable. by rewrite stat_insert_eq.
Qed.
End PackageDeviceMore.

(** X4.  Nothing keeps [image_path] apart from the binary: called with the
    binary as its image path, [package_device] completes and replaces the
    binary by the image, so that a second call packages the first image and
    writes one that is longer by the EEPROM region. *)
Theorem package_device_aliased F E (bin_path eeprom_path : Path) w b e :
  contents (fs w) bin_path = Some b →
  contents (fs w) eeprom_path = Some e →
  bin_path ≠ eeprom_path →
  let once := snd (package_device F E bin_path eeprom_path bin_path w) in
  let twice := snd (package_device F E bin_path eeprom_path bin_path once) in
  contents (fs once) bin_path = Some (image_of F E b e) ∧
  contents (fs once) eeprom_path = Some e ∧
  contents (fs twice) bin_path = Some (image_of F E (image_of F E b e) e) ∧
  length (image_of F E (image_of F E b e) e)
    = length (image_of F E b e) + (length e `max` E).
Proof.
  intros Hb He Hne once twice.
  assert (writable (fs w) bin_path = true) as Hw by by eapply contents_writable.
  assert (contents (fs once) bin_path = Some (image_of F E b e)) as Hb1.
  { unfold once. rewrite (package_device_run F E _ _ _ w b e Hb He Hw). simpl.
    by apply contents_insert_eq. }
  assert (contents (fs once) eeprom_path = Some e) as He1.
  { unfold once. rewrite (package_device_run F E _ _ _ w b e Hb He Hw). simpl.
    rewrite contents_insert_ne; by rewrite ?He. }
  split; [done |]. split; [done |]. split.
  - unfold twice.
    rewrite (package_device_run F E _ _ _ once _ e Hb1 He1)
      by by eapply contents_writable.
    simpl. apply contents_insert_eq. by eapply contents_writable.
  - rewrite !image_of_length. lia.
Qed.

(** ** Further properties of [make_dev] *)

Section MakeDevMore.
Context (F E : nat) (run_shell_oracle : string → world → result HandlerRet * FS).
Context (image name : string) (design : Path) (deployment dev_name : string)
  (dev_in dev_out : Path) (defines make_target : string).

Local Abbreviation make_dev_call :=
  (make_dev F E run_shell_oracle image name design deployment dev_name dev_in
     dev_out defines make_target).
Local Abbreviation from_compile :=
  (make_dev_from_compile F E run_shell_oracle image name deployment dev_name
     (joinpath design dev_in) dev_out defines make_target).
Local Abbreviation cmd :=
  (make_dev_cmd image name deployment dev_name (joinpath design dev_in) dev_out
     defines make_target).
Local Abbreviation call :=
  (EvCallMakeDev image name design deployment dev_name dev_in dev_out defines
     make_target).
Local Abbreviation bin_path := (joinpath dev_out [dev_name +:+ ".bin"]).
Local Abbreviation eeprom_path := (joinpath dev_out [dev_name +:+ ".eeprom"]).
Local Abbreviation image_path := (joinpath dev_out [dev_name +:+ ".img"]).
Local Abbreviation start := (after_output_dir call dev_out).

Lemma make_dev_starts_compile w :
  (∃ n, stat (fs w) dev_out = inr n) ∨ stat (fs w) (parent dev_out) = inr Dir →
  make_dev_call w = from_compile (start w) ∧
  ∃ mk, trace (start w) = trace w ++ call :: mk ∧ List.filter is_write mk = [].
Proof.
  intros Hdir. unfold after_output_dir.
  destruct (stat (fs w) dev_out) as [k | n] eqn:Hout.
  - destruct Hdir as [[n [=]] | Hpar].
    split; [by apply (make_dev_dir_created _ _ _ _ _ _ _ _ _ _ _ _ w k) |].
    by exists [EvMkdir dev_out].
  - split; [by apply (make_dev_dir_exists _ _ _ _ _ _ _ _ _ _ _ _ w n) |].
    by exists [].
Qed.

(** X6.  A build whose command succeeds and leaves both artifacts returns the
    (stdout, stderr) of the command unchanged, and packages the artifacts
    that the command left: the image of the binary and the EEPROM data is
    at dev_name.img in the output directory. *)
Theorem make_dev_success w o fs2 b e :
  (∃ n, stat (fs w) dev_out = inr n) ∨ stat (fs w) (parent dev_out) = inr Dir →
  run_shell_oracle cmd (start w) = (Return o, fs2) →
  contents fs2 bin_path = Some b →
  contents fs2 eeprom_path = Some e →
  writable fs2 image_path = true →
  make_dev_call w =
    (Return o,
     World (<[image_path := File (image_of F E b e)]> fs2)
           (trace (start w) ++
              EvRunShell cmd (Return o)
                :: package_device_events F E bin_path eeprom_path image_path b e)) ∧
  contents (fs (snd (make_dev_call w))) image_path = Some (image_of F E b e).
Proof.
  intros Hdir Hsh Hb He Hw.
  destruct (make_dev_starts_compile w Hdir) as [Hrun _].
  assert (make_dev_call w =
    (Return o,
     World (<[image_path := File (image_of F E b e)]> fs2)
           (trace (start w) ++
              EvRunShell cmd (Return o)
                :: package_device_events F E bin_path eeprom_path image_path b e)))
    as Hres.
  { rewrite Hrun, make_dev_from_compile_run, Hsh.
    rewrite (package_device_run F E _ _ _ _ b e) by done.
    simpl. by rewrite <- app_assoc. }
  split; [exact Hres |]. rewrite Hres. simpl. by apply contents_insert_eq.
Qed.

(** X7.  A build whose command succeeds without leaving a readable binary or
    EEPROM file raises the OSError of reading it: the output of the command
    is not returned, and nothing is written, so the file system is the one
    that the command left. *)
Theorem make_dev_missing_artifact w o fs2 :
  (∃ n, stat (fs w) dev_out = inr n) ∨ stat (fs w) (parent dev_out) = inr Dir →
  run_shell_oracle cmd (start w) = (Return o, fs2) →
  contents fs2 bin_path = None ∨ contents fs2 eeprom_path = None →
  ∃ k p,
    (p = bin_path ∨ p = eeprom_path) ∧
    fst (make_dev_call w) = Raise (OSError k p) ∧
    fs (snd (make_dev_call w)) = fs2 ∧
    List.filter is_write (events_of make_dev_call w) = [].
Proof.
  intros Hdir Hsh Hmiss.
  destruct (make_dev_starts_compile w Hdir) as (Hrun & mk & Htr & Hmk).
  pose proof (package_device_first_failure F E bin_path eeprom_path image_path
                (World fs2 (trace (start w) ++ [EvRunShell cmd (Return o)])))
    as Hfail.
  simpl in Hfail. destruct Hfail as [k Hk]; [tauto |].
  assert (∃ p evs,
    (p = bin_path ∨ p = eeprom_path) ∧
    List.filter is_write evs = [] ∧
    make_dev_call w =
      (Raise (OSError k p),
       World fs2 (trace w ++ call :: mk ++ EvRunShell cmd (Return o) :: evs)))
    as (p & evs & Hp & Hevs & Hres).
  { rewrite Hrun, make_dev_from_compile_run, Hsh, Hk, Htr.
    destruct (contents fs2 bin_path) as [b |] eqn:Hb.
    - destruct (contents fs2 eeprom_path) as [e |] eqn:He;
        [by destruct Hmiss |].
      exists eeprom_path,
        [EvCallPackageDevice bin_path eeprom_path image_path; EvRead bin_path].
      split; [by right |]. split; [done |]. by rewrite <- !app_assoc.
    - exists bin_path, [EvCallPackageDevice bin_path eeprom_path image_path].
      split; [by left |]. split; [done |]. by rewrite <- !app_assoc. }
  exists k, p. split; [done |].
  rewrite (events_of_run _ _ _ _ _ Hres), Hres. simpl.
  split; [done |]. split; [done |].
  by rewrite List.filter_app, Hmk; simpl; rewrite Hevs.
Qed.
(** X8.  When the output directory is missing and its parent is not a
    directory, [make_dev] ends with the OSError of [mkdir] on the output
    directory, FileNotFoundError or NotADirectoryError: no directory is
    created, the parent is not created either, and no command is run. *)
Theorem make_dev_mkdir_fails w k :
  stat (fs w) dev_out = inl k →
  stat (fs w) (parent dev_out) ≠ inr Dir →
  ∃ k',
    (k' = FileNotFoundError ∨ k' = NotADirectoryError) ∧
    make_dev_call w =
      (Raise (OSError k' dev_out), World (fs w) (trace w ++ [call])) ∧
    List.filter is_run_shell (events_of make_dev_call w) = [].
Proof.
  intros Hout Hpar.
  assert (∃ k',
    (k' = FileNotFoundError ∨ k' = NotADirectoryError) ∧
    make_dev_call w =
      (Raise (OSError k' dev_out), World (fs w) (trace w ++ [call])))
    as (k' & Hk' & Hres).
  { unfold make_dev, resolve.
    unfold bind at 1. unfold emit. unfold bind at 1. unfold path_exists. simpl.
    rewrite Hout. simpl. unfold bind at 1, mkdir. simpl. rewrite Hout.
    destruct (stat (fs w) (parent dev_out)) as [k' | [d |]] eqn:Hp; [| | done].
    - exists k'. split; [by apply walk_inl_kind in Hp | done].
    - exists NotADirectoryError. split; [by right | done]. }
  exists k'. split; [done |]. split; [done |].
  by rewrite (events_of_run _ _ _ _ _ Hres).
Qed.

(** X9.  On the host, a call of [make_dev] reads no file but the binary and
    the EEPROM file of the device, writes no file but its image and creates
    no directory but the output directory: the ELF file and the input
    directory are left to the command. *)
Theorem make_dev_host_accesses w :
  Forall (make_dev_access dev_out dev_name) (events_of make_dev_call w).
Proof.
  destruct (make_dev_outcomes F E run_shell_oracle image name design deployment
              dev_name dev_in dev_out defines make_target w)
    as (res & fs' & pre & post & Hrun & Hpre & Hpost).
  rewrite (events_of_run _ _ _ _ _ Hrun).
  apply Forall_cons_2; [done |]. apply Forall_app. split.
  - destruct Hpre as [-> | ->];
      repeat (apply Forall_cons_2; [simpl; auto |]); apply Forall_nil_2.
  - destruct Hpost as [(k & _ & _ & -> & _) | [(e & _ & ->)
                      | [(o & b & e & _ & ->) | (o & k & p & n & _ & Hn & ->)]]].
    + apply Forall_nil_2.
    + repeat (apply Forall_cons_2; [simpl; auto |]); apply Forall_nil_2.
    + unfold package_device_events.
      repeat (apply Forall_cons_2; [simpl; auto |]); apply Forall_nil_2.
    + assert (n = 0 ∨ n = 1 ∨ n = 2) as [-> | [-> | ->]] by lia; simpl;
        repeat (apply Forall_cons_2; [simpl; auto |]); apply Forall_nil_2.
Qed.

(** X10.  For one image and one environment name, two deployments whose
    builds mount the same secrets volume are the same deployment. *)
Theorem make_dev_secrets_volume_per_deployment deployment' :
  make_dev_cmd_parts image name deployment dev_name (joinpath design dev_in)
    dev_out defines make_target !! 3
  = make_dev_cmd_parts image name deployment' dev_name (joinpath design dev_in)
      dev_out defines make_target !! 3 →
  deployment = deployment'.
Proof.
  unfold make_dev_cmd_parts. simpl. intros [= Heq].
  do 5 apply (inj (String.append _)) in Heq.
  by apply string_app_inj_r in Heq.
Qed.

(** X11.  The volume name does not keep the image and the environment name
    apart: an image that ends in a dotted component and a name that starts
    with it mount the same secrets volume. *)
Theorem make_dev_secrets_volume_collision (x : string) :
  make_dev_cmd_parts (image +:+ "." +:+ x) name deployment dev_name
    (joinpath design dev_in) dev_out defines make_target !! 3
  = make_dev_cmd_parts image (x +:+ "." +:+ name) deployment dev_name
      (joinpath design dev_in) dev_out defines make_target !! 3.
Proof.
  unfold make_dev_cmd_parts. simpl. by rewrite !string_app_assoc.
Qed.
End MakeDevMore.

(** ** Further properties of [car_fob_pair] *)

Section CarFobPairMore.
Context (F E : nat) (run_shell_oracle : string → world → result HandlerRet * FS).
Context (zip_step_returns : list HandlerRet → HandlerRet).
Context (design : Path) (name deployment car_name : string) (car_out : Path)
  (car_in : Path) (image : string).

Local Abbreviation pair car_id :=
  (car_fob_pair F E run_shell_oracle zip_step_returns design name deployment
     car_name car_out car_id car_in image).
Local Abbreviation car_cmd car_id :=
  (make_dev_cmd image name deployment car_name (joinpath design car_in) car_out
     (" CAR_ID=" +:+ str_of_int car_id) "car").

Lemma car_cmd_inj car_id car_id' : car_cmd car_id = car_cmd car_id' → car_id = car_id'.
Proof.
  unfold make_dev_cmd. intros Heq.
  pose (parts := make_dev_cmd_parts image name deployment car_name
                   (joinpath design car_in) car_out EmptyString "car").
  apply (string_concat_inj_middle (take 9 parts) (drop 10 parts)) in Heq.
  apply (inj (String.append _)) in Heq. apply (inj (String.append _)) in Heq.
  by apply (inj pretty) in Heq.
Qed.

(** X12.  The car id reaches the command: two paired builds of the same
    device that run the same command, in whatever worlds, have the same
    car id. *)
Theorem car_fob_pair_car_id_in_command car_id car_id' w w' c r r' :
  EvRunShell c r ∈ events_of (pair car_id) w →
  EvRunShell c r' ∈ events_of (pair car_id') w' →
  car_id = car_id'.
Proof.
  intros Hin Hin'.
  assert (∀ id v, events_of (pair id) v
                  = events_of (make_dev F E run_shell_oracle image name design
                                 deployment car_name car_in car_out
                                 (" CAR_ID=" +:+ str_of_int id) "car") v)
    as Hev.
  { intros id v. unfold events_of. rewrite car_fob_pair_run.
    by destruct (make_dev _ _ _ _ _ _ _ _ _ _ _ _ v) as [[o | e] v']. }
  rewrite Hev in Hin, Hin'.
  pose proof (make_dev_runs_cmd F E run_shell_oracle image name design deployment
                car_name car_in car_out (" CAR_ID=" +:+ str_of_int car_id) "car" w)
    as Hc.
  pose proof (make_dev_runs_cmd F E run_shell_oracle image name design deployment
                car_name car_in car_out (" CAR_ID=" +:+ str_of_int car_id') "car" w')
    as Hc'.
  rewrite Forall_forall in Hc, Hc'.
  apply car_cmd_inj. rewrite <- (Hc _ Hin c r eq_refl). by apply (Hc' _ Hin' c r').
Qed.
End CarFobPairMore.


(** ** The further properties on the sample data *)

Lemma package_device_image_witness :
  ∃ image,
    contents
      (fs (snd (package_device scenario_flash_size scenario_eeprom_size
                  car_bin car_eeprom car_img sample_world))) car_img
      = Some image ∧
    length image = (4 `max` scenario_flash_size) + (2 `max` scenario_eeprom_size).
Proof.
  destruct (package_device_image scenario_flash_size scenario_eeprom_size
              car_bin car_eeprom car_img sample_world sample_bin sample_eeprom)
    as (image & _ & Himg & _ & Hlen & _).
  - by vm_compute.
  - by vm_compute.
  - by vm_compute.
  - exists image. split; [exact Himg | exact Hlen].
Defined.

(** Without artifacts the binary is the file that is reported missing. *)
Lemma package_device_first_failure_witness :
  ∃ k,
    package_device scenario_flash_size scenario_eeprom_size
      car_bin car_eeprom car_img bare_world
    = (Raise (OSError k car_bin),
       World (fs bare_world) [EvCallPackageDevice car_bin car_eeprom car_img]).
Proof.
  destruct (package_device_first_failure scenario_flash_size scenario_eeprom_size
              car_bin car_eeprom car_img bare_world) as [k Hk].
  - left. by vm_compute.
  - exists k. exact Hk.
Defined.

Lemma package_device_repeat_witness :
  fs (snd (package_device 8 4 car_bin car_eeprom car_img
             (snd (package_device 8 4 car_bin car_eeprom car_img sample_world))))
  = fs (snd (package_device 8 4 car_bin car_eeprom car_img sample_world)).
Proof.
  destruct (package_device_repeat 8 4 car_bin car_eeprom car_img sample_world)
    as (_ & Hfs & _).
  - done.
  - done.
  - by vm_compute.
  - exact Hfs.
Defined.

(** With regions of 8 and 4 bytes the first image has 12 bytes and the
    second, made from it, 16. *)
Lemma package_device_aliased_witness :
  contents
    (fs (snd (package_device 8 4 car_bin car_eeprom car_bin sample_world)))
    car_bin = Some (image_of 8 4 sample_bin sample_eeprom) ∧
  length (image_of 8 4 sample_bin sample_eeprom) = 12 ∧
  length (image_of 8 4 (image_of 8 4 sample_bin sample_eeprom) sample_eeprom) = 16.
Proof.
  destruct (package_device_aliased 8 4 car_bin car_eeprom sample_world
              sample_bin sample_eeprom) as (Hfirst & _ & _ & Hlen).
  - by vm_compute.
  - by vm_compute.
  - done.
  - split; [exact Hfirst |]. split; [reflexivity |]. rewrite Hlen. reflexivity.
Defined.

Lemma make_dev_success_witness :
  fst (make_dev 8 4 quiet_shell "ectf" "env" ["design"] "dep" "car" ["car"]
         ["out"] " CAR_ID=5" "car" sample_world)
    = Return (encode "built", []) ∧
  contents
    (fs (snd (make_dev 8 4 quiet_shell "ectf" "env" ["design"] "dep" "car"
                ["car"] ["out"] " CAR_ID=5" "car" sample_world)))
    car_img = Some (image_of 8 4 sample_bin sample_eeprom).
Proof.
  destruct (make_dev_success 8 4 quiet_shell "ectf" "env" ["design"] "dep" "car"
              ["car"] ["out"] " CAR_ID=5" "car" sample_world
              (encode "built", []) sample_fs sample_bin sample_eeprom)
    as [Hrun Himg].
  - left. exists Dir. by vm_compute.
  - by vm_compute.
  - by vm_compute.
  - by vm_compute.
  - by vm_compute.
  - rewrite Hrun. split; [reflexivity |]. rewrite Hrun in Himg. exact Himg.
Defined.

(** A command that succeeds without producing the binary. *)
Lemma make_dev_missing_artifact_witness :
  ∃ k p,
    fst (make_dev 8 4 quiet_shell "ectf" "env" ["design"] "dep" "car" ["car"]
           ["out"] " CAR_ID=5" "car" bare_world) = Raise (OSError k p) ∧
    fs (snd (make_dev 8 4 quiet_shell "ectf" "env" ["design"] "dep" "car" ["car"]
               ["out"] " CAR_ID=5" "car" bare_world)) = fs bare_world.
Proof.
  destruct (make_dev_missing_artifact 8 4 quiet_shell "ectf" "env" ["design"]
              "dep" "car" ["car"] ["out"] " CAR_ID=5" "car" bare_world
              (encode "built", []) (fs bare_world))
    as (k & p & _ & Hres & Hfs & _).
  - left. exists Dir. by vm_compute.
  - by vm_compute.
  - left. by vm_compute.
  - exists k, p. split; [exact Hres | exact Hfs].
Defined.

(** An output directory two levels below the root of an empty file system. *)
Lemma make_dev_mkdir_fails_witness :
  ∃ k,
    make_dev 8 4 quiet_shell "ectf" "env" ["design"] "dep" "car" ["car"]
      ["builds"; "out"] " CAR_ID=5" "car" empty_world
    = (Raise (OSError k ["builds"; "out"]),
       World ∅
         [EvCallMakeDev "ectf" "env" ["design"] "dep" "car" ["car"]
            ["builds"; "out"] " CAR_ID=5" "car"]).
Proof.
  destruct (make_dev_mkdir_fails 8 4 quiet_shell "ectf" "env" ["design"] "dep"
              "car" ["car"] ["builds"; "out"] " CAR_ID=5" "car" empty_world
              FileNotFoundError) as (k & _ & Hres & _).
  - by vm_compute.
  - by vm_compute.
  - exists k. exact Hres.
Defined.

Lemma make_dev_secrets_volume_per_deployment_witness :
  make_dev_cmd_parts "ectf" "env" "dep1" "car" ["design"; "car"] ["out"]
    " CAR_ID=5" "car" !! 3
    = Some " -v ectf.env.dep1.secrets.vol:/secrets" ∧
  make_dev_cmd_parts "ectf" "env" "dep1" "car" ["design"; "car"] ["out"]
    " CAR_ID=5" "car" !! 3
    ≠ make_dev_cmd_parts "ectf" "env" "dep2" "car" ["design"; "car"] ["out"]
        " CAR_ID=5" "car" !! 3.
Proof.
  split; [by vm_compute |]. intros Heq.
  apply (make_dev_secrets_volume_per_deployment "ectf" "env" ["design"] "dep1"
           "car" ["car"] ["out"] " CAR_ID=5" "car" "dep2") in Heq.
  discriminate Heq.
Defined.

(** The command of the car 5 is run by its build, and not by the build of
    the car 6. *)
Lemma car_fob_pair_car_id_in_command_witness :
  EvRunShell
    (make_dev_cmd "ectf" "env" "dep" "car" ["design"; "car"] ["out"]
       " CAR_ID=5" "car")
    (Return (encode "built", []))
  ∈ events_of
      (car_fob_pair 8 4 quiet_shell concat_step_returns ["design"] "env" "dep"
         "car" ["out"] 5 ["car"] "ectf") sample_world ∧
  EvRunShell
    (make_dev_cmd "ectf" "env" "dep" "car" ["design"; "car"] ["out"]
       " CAR_ID=5" "car")
    (Return (encode "built", []))
  ∉ events_of
      (car_fob_pair 8 4 quiet_shell concat_step_returns ["design"] "env" "dep"
         "car" ["out"] 6 ["car"] "ectf") sample_world.
Proof.
  assert (EvRunShell
            (make_dev_cmd "ectf" "env" "dep" "car" ["design"; "car"] ["out"]
               " CAR_ID=5" "car")
            (Return (encode "built", []))
          ∈ events_of
              (car_fob_pair 8 4 quiet_shell concat_step_returns ["design"] "env"
                 "dep" "car" ["out"] 5 ["car"] "ectf") sample_world) as Hin.
  { vm_compute. apply list_elem_of_further, list_elem_of_here. }
  split; [exact Hin |]. intros Hin'.
  pose proof (car_fob_pair_car_id_in_command 8 4 quiet_shell concat_step_returns
                ["design"] "env" "dep" "car" ["out"] ["car"] "ectf" 5 6
                sample_world sample_world _ _ _ Hin Hin') as Heq.
  discriminate Heq.
Defined.
